(** * Keypair, HDKD dispatch and signature verification of @polkadot/util-crypto
      and @polkadot/keyring (Quantus fork, with the ML-DSA lattice scheme)

    The development embeds three pieces of the TypeScript sources:

    - [Verify]: [packages/util-crypto/src/signature/verify.ts]
      ([verifyDetect], [verifyMultisig], [getVerifyFn], [signatureVerify]);
    - [Hdkd]: the HDKD dispatcher ([generators], [keyFromPath]);
    - [Pair]: the keyring pair closure built by [createPair].

    The raw algorithm primitives, the address codec, the persistence codec and
    the byte helpers of @polkadot/util are collaborators: they are taken as
    parameters (type classes), and every theorem holds for all of them.
    Exceptions are values of [Res]; the mutable variables a closure captures
    are the fields of an explicit state record. *)

From Stdlib Require Import Strings.Byte NArith Ascii.
From stdpp Require Import base option list strings gmap.

(** ** Bytes, key types, errors *)

(** A [Uint8Array]. *)
Abbreviation U8a := (list byte).

#[global] Instance byte_eq_dec : EqDecision byte := Byte.byte_eq_dec.

(** [string | Uint8Array] arguments ([U8aLike]). *)
Inductive U8aLike :=
| Str (s : string)
| Bytes (b : U8a).

(** [KeypairType], a closed union of string literals. *)
Inductive KeypairType := ecdsa | ed25519 | ethereum | mldsa | sr25519.

#[global] Instance KeypairType_eq_dec : EqDecision KeypairType.
Proof. solve_decision. Defined.

(** The exceptions the embedded code raises itself, one constructor per
    [throw new Error(...)], and [Foreign] for anything raised inside a
    collaborator. *)
Inductive Error :=
| InvalidSignatureLength (found : nat)
| UnknownCryptoType (found : option N)
| UnsupportedKeypairType (type : KeypairType)
| UnableToDerive
| CannotDeriveLocked
| CannotSignLocked
| InvalidMldsaKeySizes (secret public : nat)
| Foreign (what : string).

Inductive Res (A : Type) :=
| Ok (a : A)
| Throw (e : Error).
Arguments Ok {A} a.
Arguments Throw {A} e.

#[global] Instance Res_ret : MRet Res := λ A a, Ok a.
#[global] Instance Res_bind : MBind Res :=
  λ A B f m, match m with Ok a => f a | Throw e => Throw e end.
#[global] Instance Res_fmap : FMap Res :=
  λ A B f m, match m with Ok a => Ok (f a) | Throw e => Throw e end.

Definition is_Ok {A} (r : Res A) : bool :=
  match r with Ok _ => true | Throw _ => false end.

(** [xs.includes(x)] on an array of primitives. *)
Definition includes {A} `{EqDecision A} (xs : list A) (x : A) : bool :=
  bool_decide (x ∈ xs).

(** [u8a[0]]: a number, or [undefined] on an empty array. *)
Definition at0 (u8a : U8a) : option N := Byte.to_N <$> head u8a.

(** [u8a.subarray(1)]. *)
Definition subarray1 (u8a : U8a) : U8a := drop 1 u8a.

(** ** Signature verification engine (signature/verify.ts) *)

Module Verify.

Inductive HashType := blake2 | keccak.

(** [VerifyResult.crypto]: ['none' | KeypairType]. *)
Inductive CryptoName := none | named (type : KeypairType).

#[global] Instance CryptoName_eq_dec : EqDecision CryptoName.
Proof. solve_decision. Defined.

(** The collaborators [verify.ts] imports. A native check returns a boolean
    or throws. [MLDSA_SIGNATURE_LENGTH] is the constant of
    [mldsa/constants.js]. *)
Class Primitives := {
  MLDSA_SIGNATURE_LENGTH : nat;
  ed25519Verify : U8aLike → U8a → U8a → Res bool;
  mldsaVerify : U8aLike → U8a → U8a → Res bool;
  sr25519Verify : U8aLike → U8a → U8a → Res bool;
  secp256k1Verify : U8aLike → U8a → U8a → HashType → Res bool;
  decodeAddress : U8aLike → Res U8a;
  (** the string case of [u8aToU8a] (hex or UTF-8 text) *)
  stringToU8a : string → U8a;
  u8aIsWrapped : U8a → bool → bool;
  u8aUnwrapBytes : U8a → U8a;
  u8aWrapBytes : U8a → U8a
}.

Module Input.
Record t := mk { message : U8a; publicKey : U8a; signature : U8a }.
Definition with_message (m : U8a) (i : t) : t := mk m (publicKey i) (signature i).
Definition with_signature (s : U8a) (i : t) : t := mk (message i) (publicKey i) s.
End Input.

Module Result.
Record t := mk { crypto : CryptoName; isValid : bool; isWrapped : bool; publicKey : U8a }.
Definition with_crypto (c : CryptoName) (r : t) : t :=
  mk c (isValid r) (isWrapped r) (publicKey r).
Definition with_isValid (b : bool) (r : t) : t :=
  mk (crypto r) b (isWrapped r) (publicKey r).
End Result.

(** One call of a native check: which family, on which bytes. The log of
    these calls is ghost state: the code does not keep it, the theorems about
    which algorithms are tried read it. *)
Record Attempt := tried {
  att_crypto : KeypairType;
  att_message : U8a;
  att_signature : U8a;
  att_publicKey : U8a
}.

#[global] Instance Attempt_eq_dec : EqDecision Attempt.
Proof. solve_decision. Defined.

(** A computation that logs its native checks and may throw. *)
Definition Traced (A : Type) : Type := (list Attempt * Res A)%type.

#[global] Instance Traced_ret : MRet Traced := λ A a, ([], Ok a).
#[global] Instance Traced_bind : MBind Traced :=
  λ A B f m,
    match m with
    | (log, Ok a) => let '(log', r) := f a in (log ++ log', r)
    | (log, Throw e) => (log, Throw e)
    end.

Definition throw {A} (e : Error) : Traced A := ([], Throw e).
Definition untraced {A} (r : Res A) : Traced A := ([], r).

Definition VerifyCheck : Type := U8aLike → U8a → U8a → Res bool.
Definition Verifier : Type := (KeypairType * VerifyCheck)%type.
Definition VerifyFn : Type := Result.t → Input.t → Traced Result.t.

Section Engine.
Context `{P : Primitives}.

Definition u8aToU8a (value : U8aLike) : U8a :=
  match value with
  | Bytes b => b
  | Str s => stringToU8a s
  end.

Definition secp256k1VerifyHasher (hashType : HashType) : VerifyCheck :=
  λ message signature publicKey, secp256k1Verify message signature publicKey hashType.

Definition VERIFIERS_ECDSA : list Verifier :=
  [ (ecdsa, secp256k1VerifyHasher blake2);
    (ethereum, secp256k1VerifyHasher keccak) ].

Definition VERIFIERS : list Verifier :=
  [ (ed25519, ed25519Verify);
    (mldsa, mldsaVerify);
    (sr25519, sr25519Verify) ].

(** [verifiers.some(cb)] with the callback of [verifyDetect]: a check that
    returns true sets [result.crypto] and stops the scan; one that returns
    false or throws moves on. *)
Fixpoint verifiers_some (verifiers : list Verifier) (result : Result.t) (input : Input.t)
  : list Attempt * (Result.t * bool) :=
  match verifiers with
  | [] => ([], (result, false))
  | (crypto, verify) :: rest =>
      let call := tried crypto (Input.message input) (Input.signature input)
                        (Input.publicKey input) in
      match verify (Bytes (Input.message input)) (Input.signature input)
                   (Input.publicKey input) with
      | Ok true => ([call], (Result.with_crypto (named crypto) result, true))
      | Ok false | Throw _ =>
          let '(log, out) := verifiers_some rest result input in (call :: log, out)
      end
  end.

(** [verifyDetect] with its [verifiers] argument given. *)
Definition verifyDetectWith (result : Result.t) (input : Input.t)
    (verifiers : list Verifier) : Traced Result.t :=
  let '(log, (result, found)) := verifiers_some verifiers result input in
  (log, Ok (Result.with_isValid found result)).

(** [verifyDetect] with the default [[...VERIFIERS, ...VERIFIERS_ECDSA]]. *)
Definition verifyDetect : VerifyFn :=
  λ result input, verifyDetectWith result input (VERIFIERS ++ VERIFIERS_ECDSA).

(** The shape test of [getVerifyFn] (and, negated, of the guard of
    [verifyMultisig]), named for the theorems. *)
Definition isPrefixed (signature : U8a) : bool :=
  (includes [Some 0; Some 1; Some 2]%N (at0 signature)
     && includes [65; 66] (length signature))
  || (bool_decide (at0 signature = Some 3%N)
        && bool_decide (length signature = MLDSA_SIGNATURE_LENGTH + 1)).

Definition verifyMultisig : VerifyFn :=
  λ result input,
    let signature := Input.signature input in
    if (negb (includes [Some 0; Some 1; Some 2]%N (at0 signature))
          || negb (includes [65; 66] (length signature)))
       && negb (bool_decide (at0 signature = Some 3%N)
                  && bool_decide (length signature = MLDSA_SIGNATURE_LENGTH + 1))
    then throw (UnknownCryptoType (at0 signature))
    else if bool_decide (at0 signature = Some 3%N)
              && bool_decide (length signature = MLDSA_SIGNATURE_LENGTH + 1)
    then verifyDetectWith result (Input.with_signature (subarray1 signature) input)
           [(mldsa, mldsaVerify)]
    else if bool_decide (length signature = 66)
    then verifyDetectWith result (Input.with_signature (subarray1 signature) input)
           VERIFIERS_ECDSA
    else
      result ← verifyDetectWith result
                 (Input.with_signature (subarray1 signature) input) VERIFIERS;
      result ← (if negb (Result.isValid result)
                then verifyDetectWith result input VERIFIERS_ECDSA
                else mret result);
      mret (if negb (Result.isValid result)
            then Result.with_crypto none result
            else result).

Definition getVerifyFn (signature : U8a) : VerifyFn :=
  if (includes [Some 0; Some 1; Some 2]%N (at0 signature)
        && includes [65; 66] (length signature))
     || (bool_decide (at0 signature = Some 3%N)
           && bool_decide (length signature = MLDSA_SIGNATURE_LENGTH + 1))
  then verifyMultisig
  else verifyDetect.

Definition validLengths : list nat :=
  [64; 65; 66; MLDSA_SIGNATURE_LENGTH; MLDSA_SIGNATURE_LENGTH + 1].

Definition signatureVerify (message signature addressOrPublicKey : U8aLike)
  : Traced Result.t :=
  let signatureU8a := u8aToU8a signature in
  if negb (includes validLengths (length signatureU8a))
  then throw (InvalidSignatureLength (length signatureU8a))
  else
    publicKey ← untraced (decodeAddress addressOrPublicKey);
    let input := Input.mk (u8aToU8a message) publicKey signatureU8a in
    let result :=
      Result.mk none false (u8aIsWrapped (Input.message input) true) publicKey in
    let isWrappedBytes := u8aIsWrapped (Input.message input) false in
    let verifyFn := getVerifyFn signatureU8a in
    result ← verifyFn result input;
    if bool_decide (Result.crypto result ≠ none)
       || (Result.isWrapped result && negb isWrappedBytes)
    then mret result
    else
      verifyFn result
        (Input.with_message
           (if isWrappedBytes
            then u8aUnwrapBytes (Input.message input)
            else u8aWrapBytes (Input.message input))
           input).

(** *** Ordered trials, stated apart from the code

    A plan lists the (family, signature bytes) pairs a pass may hand to the
    native checks, in order. [trials] is the log of a scan that stops at
    the first accepting check, [winner] the family it stops at. *)

Definition checkOf (crypto : KeypairType) : VerifyCheck :=
  match crypto with
  | ecdsa => secp256k1VerifyHasher blake2
  | ed25519 => ed25519Verify
  | ethereum => secp256k1VerifyHasher keccak
  | mldsa => mldsaVerify
  | sr25519 => sr25519Verify
  end.

(** The table entry of a family. *)
Definition entry (crypto : KeypairType) : Verifier := (crypto, checkOf crypto).

(** The native check returned true (it neither returned false nor threw). *)
Definition accepts (crypto : KeypairType) (message signature publicKey : U8a) : bool :=
  match checkOf crypto (Bytes message) signature publicKey with
  | Ok true => true
  | _ => false
  end.

Definition Plan : Type := list (KeypairType * U8a).

Fixpoint trials (plan : Plan) (message publicKey : U8a) : list Attempt :=
  match plan with
  | [] => []
  | (crypto, signature) :: rest =>
      tried crypto message signature publicKey ::
        (if accepts crypto message signature publicKey then []
         else trials rest message publicKey)
  end.

Fixpoint winner (plan : Plan) (message publicKey : U8a) : option KeypairType :=
  match plan with
  | [] => None
  | (crypto, signature) :: rest =>
      if accepts crypto message signature publicKey then Some crypto
      else winner rest message publicKey
  end.

(** What a pass over [plan] reports: the winner and valid, or ['none'] and
    invalid. *)
Definition verdict (plan : Plan) (wrapped : bool) (message publicKey : U8a) : Result.t :=
  match winner plan message publicKey with
  | Some crypto => Result.mk (named crypto) true wrapped publicKey
  | None => Result.mk none false wrapped publicKey
  end.

(** The message of the second pass. *)
Definition toggled (message : U8a) : U8a :=
  if u8aIsWrapped message false then u8aUnwrapBytes message else u8aWrapBytes message.

(** [result.isWrapped && !isWrappedBytes]: wrapped when the Ethereum
    envelope counts, not wrapped when only <Bytes> does. The one form for
    which no second pass is made. *)
Definition ethereumWrappedOnly (message : U8a) : bool :=
  u8aIsWrapped message true && negb (u8aIsWrapped message false).

(** One pass over [plan]; a second one, on the toggled message, when the
    first found no winner and the message is not Ethereum-wrapped. *)
Definition twoPass (plan : Plan) (message publicKey : U8a) : Traced Result.t :=
  let wrapped := u8aIsWrapped message true in
  if bool_decide (is_Some (winner plan message publicKey)) || ethereumWrappedOnly message
  then (trials plan message publicKey, Ok (verdict plan wrapped message publicKey))
  else (trials plan message publicKey ++ trials plan (toggled message) publicKey,
        Ok (verdict plan wrapped (toggled message) publicKey)).

Definition allFamilies : list KeypairType := [ed25519; mldsa; sr25519; ecdsa; ethereum].

Definition stripped (signature : U8a) (families : list KeypairType) : Plan :=
  (λ crypto, (crypto, subarray1 signature)) <$> families.

Definition unstripped (signature : U8a) (families : list KeypairType) : Plan :=
  (λ crypto, (crypto, signature)) <$> families.

(** The plan of a pass of [signatureVerify], by the shape of the signature:
    the three branches of [verifyMultisig] for a prefixed one, the default
    list of [verifyDetect] otherwise. *)
Definition planOf (signature : U8a) : Plan :=
  if bool_decide (at0 signature = Some 3%N)
     && bool_decide (length signature = MLDSA_SIGNATURE_LENGTH + 1)
  then stripped signature [mldsa]
  else if includes [Some 0; Some 1; Some 2]%N (at0 signature)
          && bool_decide (length signature = 66)
  then stripped signature [ecdsa; ethereum]
  else if includes [Some 0; Some 1; Some 2]%N (at0 signature)
          && bool_decide (length signature = 65)
  then stripped signature [ed25519; mldsa; sr25519] ++ unstripped signature [ecdsa; ethereum]
  else unstripped signature allFamilies.

End Engine.

End Verify.

(** ** HDKD dispatcher (key/fromPath.ts) *)

Module Hdkd.

Record Keypair := mkKeypair { publicKey : U8a; secretKey : U8a }.

(** One step of a derivation path. *)
Record DeriveJunction := mkJunction { chainCode : U8a; isHard : bool }.

Definition StepFn : Type := Keypair → DeriveJunction → Res Keypair.

(** The per-algorithm derivation steps, imported by the dispatcher. A step
    may throw (a soft junction on a family without soft derivation). *)
Class Primitives := {
  keyHdkdEcdsa : StepFn;
  keyHdkdEd25519 : StepFn;
  keyHdkdSr25519 : StepFn;
  keyHdkdMldsa : StepFn
}.

Section Dispatch.
Context `{H : Primitives}.

(** The [generators] object. The lookup [generators[type]] is [Some] for
    each of its five keys; [None] stands for the [undefined] of a key the
    object does not have. *)
Definition generators (type : KeypairType) : option StepFn :=
  match type with
  | ecdsa => Some keyHdkdEcdsa
  | ed25519 => Some keyHdkdEd25519
  | ethereum => Some keyHdkdEcdsa
  | mldsa => Some keyHdkdMldsa
  | sr25519 => Some keyHdkdSr25519
  end.

(** The [for (const junction of path)] loop. *)
Fixpoint foldPath (keyHdkd : StepFn) (result : Keypair) (path : list DeriveJunction)
  : Res Keypair :=
  match path with
  | [] => Ok result
  | junction :: rest =>
      result ← keyHdkd result junction;
      foldPath keyHdkd result rest
  end.

Definition keyFromPath (pair : Keypair) (path : list DeriveJunction) (type : KeypairType)
  : Res Keypair :=
  match generators type with
  | None => Throw (UnsupportedKeypairType type)
  | Some keyHdkd => foldPath keyHdkd pair path
  end.

End Dispatch.

End Hdkd.

(** ** Keyring pair (keyring/src/pair/index.ts, [createPair]) *)

Module Pair.

Import Hdkd.

(** Values of the metadata object ([Record<string, unknown>]). *)
Inductive MetaValue :=
| MText (s : string)
| MNumber (n : Z)
| MFlag (b : bool).

Abbreviation Meta := (gmap string MetaValue).

Inductive EncryptedJsonEncoding := enc_none | enc_scrypt | enc_xsalsa20_poly1305.

(** [PairInfo]: the secret key may be absent. *)
Record PairInfo := mkInfo { info_publicKey : U8a; info_secretKey : option U8a }.

Record SignOptions := mkOptions { withType : bool }.

(** The variables the closure of [createPair] captures: [type] is never
    assigned, the others are. *)
Record State := mkState {
  type : KeypairType;
  publicKey : U8a;
  secretKey : option U8a;
  meta : Meta;
  encoded : option U8a;
  encTypes : option (list EncryptedJsonEncoding)
}.

Definition with_keys (pk : U8a) (sk : option U8a) (s : State) : State :=
  mkState (type s) pk sk (meta s) (encoded s) (encTypes s).
Definition with_secretKey (sk : option U8a) (s : State) : State :=
  mkState (type s) (publicKey s) sk (meta s) (encoded s) (encTypes s).
Definition with_meta (m : Meta) (s : State) : State :=
  mkState (type s) (publicKey s) (secretKey s) m (encoded s) (encTypes s).
Definition with_encoded (e : option U8a) (t : option (list EncryptedJsonEncoding))
    (s : State) : State :=
  mkState (type s) (publicKey s) (secretKey s) (meta s) e t.

(** The collaborators of the pair: byte helpers, hashes, the raw primitives
    per family, the address codecs, the path parser and the persistence
    codec. [toSS58] is the function of the [Setup] argument. *)
Class Primitives := {
  Json : Type;
  u8aEmpty : U8a → bool;
  u8aToHex : U8a → string;
  blake2AsU8a : U8a → U8a;
  keccakAsU8a : U8a → U8a;
  secp256k1Compress : U8a → Res U8a;
  secp256k1Expand : U8a → Res U8a;
  ethereumEncode : U8a → Res string;
  toSS58 : U8a → Res string;
  keyExtractPath : string → Res (list DeriveJunction);
  secp256k1FromSeed : U8a → Res Keypair;
  ed25519FromSeed : U8a → Res Keypair;
  mldsaPairFromSeed : U8a → Res Keypair;
  sr25519FromSeed : U8a → Res Keypair;
  secp256k1Sign : U8a → PairInfo → Verify.HashType → Res U8a;
  ed25519Sign : U8a → PairInfo → Res U8a;
  mldsaSign : U8a → PairInfo → Res U8a;
  sr25519Sign : U8a → PairInfo → Res U8a;
  sr25519VrfSign : U8aLike → option U8a → option U8aLike → option U8aLike → Res U8a;
  sr25519VrfVerify : U8aLike → U8a → U8a → option U8aLike → option U8aLike → Res bool;
  decodePair : option string → option U8a → option (list EncryptedJsonEncoding) → Res Keypair;
  encodePair : PairInfo → option string → KeypairType → Res U8a;
  pairToJson : KeypairType → string → Meta → U8a → bool → Json
}.

(** A method of the pair: reads and assigns the captured variables, returns
    or throws. The state it leaves is kept when it throws. *)
Definition Method (A : Type) : Type := State → State * Res A.

#[global] Instance Method_ret : MRet Method := λ A a s, (s, Ok a).
#[global] Instance Method_bind : MBind Method :=
  λ A B f m s,
    match m s with
    | (s', Ok a) => f a s'
    | (s', Throw e) => (s', Throw e)
    end.

Definition get : Method State := λ s, (s, Ok s).
Definition put (s : State) : Method unit := λ _, (s, Ok tt).
Definition lift {A} (r : Res A) : Method A := λ s, (s, r).

Section Closure.
Context `{V : Verify.Primitives} `{H : Hdkd.Primitives} `{P : Primitives}.

Definition TYPE_FROM_SEED (type : KeypairType) : U8a → Res Keypair :=
  match type with
  | ecdsa => secp256k1FromSeed
  | ed25519 => ed25519FromSeed
  | ethereum => secp256k1FromSeed
  | mldsa => mldsaPairFromSeed
  | sr25519 => sr25519FromSeed
  end.

Definition TYPE_PREFIX (type : KeypairType) : U8a :=
  match type with
  | ecdsa => [x02]
  | ed25519 => [x00]
  | ethereum => [x02]
  | mldsa => [x03]
  | sr25519 => [x01]
  end.

Definition SIG_TYPE_NONE : U8a := [].

Definition TYPE_SIGNATURE (type : KeypairType) : U8a → PairInfo → Res U8a :=
  match type with
  | ecdsa => λ m p, secp256k1Sign m p Verify.blake2
  | ed25519 => ed25519Sign
  | ethereum => λ m p, secp256k1Sign m p Verify.keccak
  | mldsa => mldsaSign
  | sr25519 => sr25519Sign
  end.

Definition TYPE_ADDRESS (type : KeypairType) : U8a → Res U8a :=
  match type with
  | ecdsa => λ p, Ok (if bool_decide (32 < length p) then blake2AsU8a p else p)
  | ed25519 => λ p, Ok p
  | ethereum => λ p, if bool_decide (length p = 20) then Ok p
                     else keccakAsU8a <$> secp256k1Expand p
  | mldsa => λ p, Ok (blake2AsU8a p)
  | sr25519 => λ p, Ok p
  end.

Definition isLocked (secretKey : option U8a) : bool :=
  match secretKey with
  | None => true
  | Some secretKey => u8aEmpty secretKey
  end.

(** [context || ''], then the conversion [u8aConcat] applies. *)
Definition orEmpty (v : option U8aLike) : U8a :=
  Verify.u8aToU8a (default (Str "") v).

Definition vrfHash (proof : U8a) (context extra : option U8aLike) : U8a :=
  blake2AsU8a (orEmpty context ++ orEmpty extra ++ proof).

(** [createPair]: the initial values of the captured variables ([meta]
    defaults to the empty object). *)
Definition createPair (type : KeypairType) (info : PairInfo) (meta : option Meta)
    (encoded : option U8a) (encTypes : option (list EncryptedJsonEncoding)) : State :=
  mkState type (info_publicKey info) (info_secretKey info) (default ∅ meta) encoded encTypes.

Definition decodePkcs8 (passphrase : option string) (userEncoded : option U8a)
  : Method unit :=
  s ← get;
  decoded ← lift (decodePair passphrase
                    (match userEncoded with Some e => Some e | None => encoded s end)
                    (encTypes s));
  if bool_decide (type s = mldsa) then
    if bool_decide (length (Hdkd.secretKey decoded) = 4896)
       && bool_decide (length (Hdkd.publicKey decoded) = 2592)
    then put (with_keys (Hdkd.publicKey decoded) (Some (Hdkd.secretKey decoded)) s)
    else if bool_decide (length (Hdkd.secretKey decoded) = 32)
    then
      pair ← lift (TYPE_FROM_SEED (type s) (Hdkd.secretKey decoded));
      put (with_keys (Hdkd.publicKey pair) (Some (Hdkd.secretKey pair)) s)
    else lift (Throw (InvalidMldsaKeySizes (length (Hdkd.secretKey decoded))
                                            (length (Hdkd.publicKey decoded))))
  else
    if bool_decide (length (Hdkd.secretKey decoded) = 64)
    then put (with_keys (Hdkd.publicKey decoded) (Some (Hdkd.secretKey decoded)) s)
    else
      pair ← lift (TYPE_FROM_SEED (type s) (Hdkd.secretKey decoded));
      put (with_keys (Hdkd.publicKey pair) (Some (Hdkd.secretKey pair)) s).

Definition recode (passphrase : option string) : Method U8a :=
  s ← get;
  _ ← (if isLocked (secretKey s) && bool_decide (is_Some (encoded s))
       then decodePkcs8 passphrase (encoded s)
       else mret tt);
  s ← get;
  encoded' ← lift (encodePair (mkInfo (publicKey s) (secretKey s)) passphrase (type s));
  _ ← put (with_encoded (Some encoded') None s);
  mret encoded'.

Definition encodeAddress (s : State) : Res string :=
  raw ← TYPE_ADDRESS (type s) (publicKey s);
  if bool_decide (type s = ethereum) then ethereumEncode raw else toSS58 raw.

(** The getters. *)
Definition address (s : State) : Res string := encodeAddress s.

Definition addressRaw (s : State) : Res U8a :=
  raw ← TYPE_ADDRESS (type s) (publicKey s);
  Ok (if bool_decide (type s = ethereum) then drop (length raw - 20) raw else raw).

Definition derive (suri : string) (meta : option Meta) (s : State) : Res State :=
  if bool_decide (type s = ethereum) then Throw UnableToDerive
  else if isLocked (secretKey s) then Throw CannotDeriveLocked
  else
    path ← keyExtractPath suri;
    (* not locked: the secret key is defined *)
    derived ← keyFromPath (mkKeypair (publicKey s) (default [] (secretKey s))) path (type s);
    Ok (createPair (type s)
          (mkInfo (Hdkd.publicKey derived) (Some (Hdkd.secretKey derived))) meta None None).

Definition encodePkcs8 (passphrase : option string) : Method U8a := recode passphrase.

Definition lock : Method unit :=
  s ← get; put (with_secretKey (Some []) s).

(** [objectSpread({}, meta, additional)]: later keys overwrite. *)
Definition setMeta (additional : Meta) : Method unit :=
  s ← get; put (with_meta (additional ∪ meta s) s).

Definition sign (message : U8aLike) (options : SignOptions) (s : State) : Res U8a :=
  if isLocked (secretKey s) then Throw CannotSignLocked
  else
    signature ← TYPE_SIGNATURE (type s) (Verify.u8aToU8a message)
                  (mkInfo (publicKey s) (secretKey s));
    Ok ((if withType options then TYPE_PREFIX (type s) else SIG_TYPE_NONE) ++ signature).

(** [!!passphrase]. *)
Definition truthy (passphrase : option string) : bool :=
  match passphrase with
  | Some p => bool_decide (p ≠ "")
  | None => false
  end.

(** The [const address] of [toJson]. *)
Definition toJsonAddress (s : State) : Res string :=
  if includes [ecdsa; ethereum] (type s)
  then if bool_decide (length (publicKey s) = 20)
       then Ok (u8aToHex (publicKey s))
       else u8aToHex <$> secp256k1Compress (publicKey s)
  else encodeAddress s.

Definition toJson (passphrase : option string) : Method Json :=
  s ← get;
  address ← lift (toJsonAddress s);
  encoded' ← recode passphrase;
  mret (pairToJson (type s) address (meta s) encoded' (truthy passphrase)).

Definition unlock (passphrase : option string) : Method unit :=
  decodePkcs8 passphrase None.

Definition verify (message signature signerPublic : U8aLike) (s : State) : Res bool :=
  if bool_decide (type s = mldsa) then
    match Verify.mldsaVerify message (Verify.u8aToU8a signature)
                             (Verify.u8aToU8a signerPublic) with
    | Ok b => Ok b
    | Throw _ => Ok false
    end
  else
    raw ← TYPE_ADDRESS (type s) (Verify.u8aToU8a signerPublic);
    result ← (Verify.signatureVerify message signature (Bytes raw)).2;
    Ok (Verify.Result.isValid result).

Definition vrfSign (message : U8aLike) (context extra : option U8aLike) (s : State)
  : Res U8a :=
  if isLocked (secretKey s) then Throw CannotSignLocked
  else if bool_decide (type s = sr25519)
  then sr25519VrfSign message (secretKey s) context extra
  else
    proof ← TYPE_SIGNATURE (type s) (Verify.u8aToU8a message)
              (mkInfo (publicKey s) (secretKey s));
    Ok (vrfHash proof context extra ++ proof).

Definition vrfVerify (message : U8aLike) (vrfResult : U8a) (signerPublic : U8aLike)
    (context extra : option U8aLike) (s : State) : Res bool :=
  if bool_decide (type s = sr25519)
  then sr25519VrfVerify message vrfResult (publicKey s) context extra
  else
    raw ← TYPE_ADDRESS (type s) (Verify.u8aToU8a signerPublic);
    result ← (Verify.signatureVerify message
                (Bytes (TYPE_PREFIX (type s) ++ drop 32 vrfResult)) (Bytes raw)).2;
    Ok (Verify.Result.isValid result
        && bool_decide (take 32 vrfResult = vrfHash (drop 32 vrfResult) context extra)).

(** *** The pair as a state machine

    A call of any member of the returned object, and the state it leaves
    (whether it returned or threw). *)
Inductive Call :=
| GetAddress | GetAddressRaw | GetIsLocked | GetMeta | GetPublicKey | GetType
| DecodePkcs8 (passphrase : option string) (userEncoded : option U8a)
| Derive (suri : string) (meta : option Meta)
| EncodePkcs8 (passphrase : option string)
| Lock
| SetMeta (additional : Meta)
| Sign (message : U8aLike) (options : SignOptions)
| ToJson (passphrase : option string)
| Unlock (passphrase : option string)
| VerifySignature (message signature signerPublic : U8aLike)
| VrfSign (message : U8aLike) (context extra : option U8aLike)
| VrfVerify (message : U8aLike) (vrfResult : U8a) (signerPublic : U8aLike)
            (context extra : option U8aLike).

Definition after (c : Call) (s : State) : State :=
  match c with
  | DecodePkcs8 passphrase userEncoded => (decodePkcs8 passphrase userEncoded s).1
  | EncodePkcs8 passphrase => (encodePkcs8 passphrase s).1
  | Lock => (lock s).1
  | SetMeta additional => (setMeta additional s).1
  | ToJson passphrase => (toJson passphrase s).1
  | Unlock passphrase => (unlock passphrase s).1
  | GetAddress | GetAddressRaw | GetIsLocked | GetMeta | GetPublicKey | GetType
  | Derive _ _ | Sign _ _ | VerifySignature _ _ _ | VrfSign _ _ _ | VrfVerify _ _ _ _ _ => s
  end.

Definition afterAll (calls : list Call) (s : State) : State :=
  foldl (λ s c, after c s) s calls.

(** The members that decode a container, and so may assign the keys. *)
Definition decodes (c : Call) : bool :=
  match c with
  | DecodePkcs8 _ _ | EncodePkcs8 _ | ToJson _ | Unlock _ => true
  | _ => false
  end.

(** What a call that decodes no container leaves alone, once the pair is
    locked: the type, the public key and the emptied secret key. *)
Definition sealed (s0 s : State) : Prop :=
  type s = type s0 ∧ publicKey s = publicKey s0 ∧ secretKey s = Some [].

End Closure.

End Pair.

(** ** Sample collaborators

    Concrete stand-ins for the collaborators, used only to evaluate the
    embedded code on explicit inputs. The native checks of [rejecting] accept
    nothing; the other instances change one check. *)

Module Sample.

Definition utf8 (s : string) : U8a := byte_of_ascii <$> String.list_ascii_of_string s.

Definition U8A_WRAP_PREFIX : U8a := utf8 "<Bytes>".
Definition U8A_WRAP_POSTFIX : U8a := utf8 "</Bytes>".
Definition U8A_WRAP_ETHEREUM : U8a := x19 :: utf8 "Ethereum Signed Message:" ++ [x0a].

Definition isWrapped (u8a : U8a) (withEthereum : bool) : bool :=
  (bool_decide (U8A_WRAP_PREFIX `prefix_of` u8a)
     && bool_decide (U8A_WRAP_POSTFIX `suffix_of` u8a)
     && bool_decide (length U8A_WRAP_PREFIX + length U8A_WRAP_POSTFIX ≤ length u8a))
  || (withEthereum && bool_decide (U8A_WRAP_ETHEREUM `prefix_of` u8a)).

Definition unwrapBytes (u8a : U8a) : U8a :=
  if isWrapped u8a false
  then take (length u8a - length U8A_WRAP_PREFIX - length U8A_WRAP_POSTFIX)
            (drop (length U8A_WRAP_PREFIX) u8a)
  else u8a.

Definition wrapBytes (u8a : U8a) : U8a :=
  if isWrapped u8a true then u8a else U8A_WRAP_PREFIX ++ u8a ++ U8A_WRAP_POSTFIX.

Definition never : Verify.VerifyCheck := λ _ _ _, Ok false.

(** Accepts exactly the 64-byte signatures. *)
Definition only64 : Verify.VerifyCheck := λ _ signature _, Ok (bool_decide (length signature = 64)).

(** Throws on every input. *)
Definition throwing : Verify.VerifyCheck := λ _ _ _, Throw (Foreign "verify").

Definition rawKeyOnly (addressOrPublicKey : U8aLike) : Res U8a :=
  match addressOrPublicKey with
  | Bytes b => Ok b
  | Str _ => Throw (Foreign "decodeAddress")
  end.

(** The lattice scheme's signature length: the comment of [verifyMultisig]
    gives the prefixed length as 4628 bytes. *)
Definition rejecting : Verify.Primitives := {|
  Verify.MLDSA_SIGNATURE_LENGTH := 4627;
  Verify.ed25519Verify := never;
  Verify.mldsaVerify := never;
  Verify.sr25519Verify := never;
  Verify.secp256k1Verify := λ m s p _, never m s p;
  Verify.decodeAddress := rawKeyOnly;
  Verify.stringToU8a := utf8;
  Verify.u8aIsWrapped := isWrapped;
  Verify.u8aUnwrapBytes := unwrapBytes;
  Verify.u8aWrapBytes := wrapBytes
|}.

(** As [rejecting], but the Sr25519 check accepts 64-byte signatures. *)
Definition sr25519Accepting : Verify.Primitives := {|
  Verify.MLDSA_SIGNATURE_LENGTH := 4627;
  Verify.ed25519Verify := never;
  Verify.mldsaVerify := never;
  Verify.sr25519Verify := only64;
  Verify.secp256k1Verify := λ m s p _, never m s p;
  Verify.decodeAddress := rawKeyOnly;
  Verify.stringToU8a := utf8;
  Verify.u8aIsWrapped := isWrapped;
  Verify.u8aUnwrapBytes := unwrapBytes;
  Verify.u8aWrapBytes := wrapBytes
|}.

(** As [rejecting], but the lattice check throws. *)
Definition mldsaThrowing : Verify.Primitives := {|
  Verify.MLDSA_SIGNATURE_LENGTH := 4627;
  Verify.ed25519Verify := never;
  Verify.mldsaVerify := throwing;
  Verify.sr25519Verify := never;
  Verify.secp256k1Verify := λ m s p _, never m s p;
  Verify.decodeAddress := rawKeyOnly;
  Verify.stringToU8a := utf8;
  Verify.u8aIsWrapped := isWrapped;
  Verify.u8aUnwrapBytes := unwrapBytes;
  Verify.u8aWrapBytes := wrapBytes
|}.

(** A derivation step that appends the chain code to both keys. *)
Definition appendChainCode : Hdkd.StepFn :=
  λ pair junction,
    Ok (Hdkd.mkKeypair (Hdkd.publicKey pair ++ Hdkd.chainCode junction)
                       (Hdkd.secretKey pair ++ Hdkd.chainCode junction)).

Definition steps : Hdkd.Primitives := {|
  Hdkd.keyHdkdEcdsa := appendChainCode;
  Hdkd.keyHdkdEd25519 := appendChainCode;
  Hdkd.keyHdkdSr25519 := appendChainCode;
  Hdkd.keyHdkdMldsa := appendChainCode
|}.

(** Seed expansion: the seed is the secret key, its reverse the public key. *)
Definition fromSeed (seed : U8a) : Res Hdkd.Keypair :=
  Ok (Hdkd.mkKeypair (reverse seed) seed).

(** The container is the secret key followed by the public key, unencrypted;
    decoding splits it after 64 bytes and needs a container. *)
Definition decodeContainer (passphrase : option string) (container : option U8a)
    (encTypes : option (list Pair.EncryptedJsonEncoding)) : Res Hdkd.Keypair :=
  match container with
  | Some bytes => Ok (Hdkd.mkKeypair (drop 64 bytes) (take 64 bytes))
  | None => Throw (Foreign "decodePair")
  end.

Definition encodeContainer (info : Pair.PairInfo) (passphrase : option string)
    (type : KeypairType) : Res U8a :=
  Ok (default [] (Pair.info_secretKey info) ++ Pair.info_publicKey info).

Definition allZero (u8a : U8a) : bool := forallb (λ b, bool_decide (b = x00)) u8a.

Definition signWith (message : U8a) (info : Pair.PairInfo) : Res U8a :=
  Ok (default [] (Pair.info_secretKey info) ++ message).

Definition collaborators : Pair.Primitives := {|
  Pair.Json := (string * U8a * bool)%type;
  Pair.u8aEmpty := allZero;
  Pair.u8aToHex := λ _, "0x"%string;
  Pair.blake2AsU8a := λ u8a, take 32 (reverse u8a ++ replicate 32 x00);
  Pair.keccakAsU8a := λ u8a, take 32 (u8a ++ replicate 32 xff);
  Pair.secp256k1Compress := λ u8a, Ok (take 33 u8a);
  Pair.secp256k1Expand := λ u8a, Ok (u8a ++ u8a);
  Pair.ethereumEncode := λ u8a, Ok (String.string_of_list_ascii (ascii_of_byte <$> u8a));
  Pair.toSS58 := λ u8a, Ok (String.string_of_list_ascii (ascii_of_byte <$> u8a));
  Pair.keyExtractPath := λ suri,
    if bool_decide (suri = ""%string) then Ok []
    else Ok [Hdkd.mkJunction (utf8 suri) true];
  Pair.secp256k1FromSeed := fromSeed;
  Pair.ed25519FromSeed := fromSeed;
  Pair.mldsaPairFromSeed := fromSeed;
  Pair.sr25519FromSeed := fromSeed;
  Pair.secp256k1Sign := λ m p _, signWith m p;
  Pair.ed25519Sign := signWith;
  Pair.mldsaSign := signWith;
  Pair.sr25519Sign := signWith;
  Pair.sr25519VrfSign := λ _ _ _ _, Throw (Foreign "sr25519VrfSign");
  Pair.sr25519VrfVerify := λ _ _ _ _ _, Ok false;
  Pair.decodePair := decodeContainer;
  Pair.encodePair := encodeContainer;
  Pair.pairToJson := λ _ address _ container isEncrypted, (address, container, isEncrypted)
|}.

(** Sample inputs. *)
Definition key32 : U8a := replicate 32 x01.
Definition secret64 : U8a := replicate 64 x07.

Definition sig (first : byte) (len : nat) : U8a := first :: replicate (len - 1) xaa.

Definition unlockedPair (type : KeypairType) : Pair.State :=
  Pair.mkState type key32 (Some secret64) ∅ None None.

(** The log reduced to (family, length of the signature handed over). *)
Definition familiesAndLengths (t : Verify.Traced Verify.Result.t)
  : list (KeypairType * nat) :=
  (λ a, (Verify.att_crypto a, length (Verify.att_signature a))) <$> t.1.

(** A pair built from a public key and a container, no secret key yet. *)
Definition storedPair (type : KeypairType) : Pair.State :=
  Pair.mkState type key32 None ∅ (Some (secret64 ++ key32)) None.

Definition bytesOf (value : U8aLike) : U8a :=
  match value with
  | Bytes b => b
  | Str s => utf8 s
  end.

(** A check that accepts exactly what [signWith] makes of [secret64] and
    the message, whatever the public key. *)
Definition echoCheck : Verify.VerifyCheck :=
  λ message signature _, Ok (bool_decide (signature = secret64 ++ bytesOf message)).

(** As [rejecting], but every native check is [echoCheck]. *)
Definition echoing : Verify.Primitives := {|
  Verify.MLDSA_SIGNATURE_LENGTH := 4627;
  Verify.ed25519Verify := echoCheck;
  Verify.mldsaVerify := echoCheck;
  Verify.sr25519Verify := echoCheck;
  Verify.secp256k1Verify := λ m s p _, echoCheck m s p;
  Verify.decodeAddress := rawKeyOnly;
  Verify.stringToU8a := utf8;
  Verify.u8aIsWrapped := isWrapped;
  Verify.u8aUnwrapBytes := unwrapBytes;
  Verify.u8aWrapBytes := wrapBytes
|}.

(** A step that throws on a soft junction and appends the chain code on a
    hard one. *)
Definition hardOnly : Hdkd.StepFn :=
  λ pair junction,
    if Hdkd.isHard junction then appendChainCode pair junction
    else Throw (Foreign "soft junction").

(** As [collaborators], but a derivation string parses to one junction per
    character: the first is soft when it is "/", every other is hard. *)
Definition junctionOf (a : ascii) : Hdkd.DeriveJunction :=
  Hdkd.mkJunction [byte_of_ascii a] (negb (bool_decide (a = "/"%char))).

Definition perCharacter : Pair.Primitives := {|
  Pair.Json := Pair.Json (Primitives := collaborators);
  Pair.u8aEmpty := allZero;
  Pair.u8aToHex := Pair.u8aToHex (Primitives := collaborators);
  Pair.blake2AsU8a := Pair.blake2AsU8a (Primitives := collaborators);
  Pair.keccakAsU8a := Pair.keccakAsU8a (Primitives := collaborators);
  Pair.secp256k1Compress := Pair.secp256k1Compress (Primitives := collaborators);
  Pair.secp256k1Expand := Pair.secp256k1Expand (Primitives := collaborators);
  Pair.ethereumEncode := Pair.ethereumEncode (Primitives := collaborators);
  Pair.toSS58 := Pair.toSS58 (Primitives := collaborators);
  Pair.keyExtractPath := λ suri, Ok (junctionOf <$> String.list_ascii_of_string suri);
  Pair.secp256k1FromSeed := fromSeed;
  Pair.ed25519FromSeed := fromSeed;
  Pair.mldsaPairFromSeed := fromSeed;
  Pair.sr25519FromSeed := fromSeed;
  Pair.secp256k1Sign := λ m p _, signWith m p;
  Pair.ed25519Sign := signWith;
  Pair.mldsaSign := signWith;
  Pair.sr25519Sign := signWith;
  Pair.sr25519VrfSign := Pair.sr25519VrfSign (Primitives := collaborators);
  Pair.sr25519VrfVerify := Pair.sr25519VrfVerify (Primitives := collaborators);
  Pair.decodePair := decodeContainer;
  Pair.encodePair := encodeContainer;
  Pair.pairToJson := Pair.pairToJson (Primitives := collaborators)
|}.

Definition hardSteps : Hdkd.Primitives := {|
  Hdkd.keyHdkdEcdsa := hardOnly;
  Hdkd.keyHdkdEd25519 := hardOnly;
  Hdkd.keyHdkdSr25519 := hardOnly;
  Hdkd.keyHdkdMldsa := hardOnly
|}.

End Sample.

(** * Theorems *)

(** ** The verification engine *)

Section VerifyFacts.
Context `{P : Verify.Primitives}.
Import Verify.

Implicit Types (plan : Plan) (r : Result.t) (i : Input.t) (m pk s : U8a).

Lemma VERIFIERS_entries : VERIFIERS = entry <$> [ed25519; mldsa; sr25519].
Proof. reflexivity. Qed.

Lemma VERIFIERS_ECDSA_entries : VERIFIERS_ECDSA = entry <$> [ecdsa; ethereum].
Proof. reflexivity. Qed.

Lemma trials_app plan1 plan2 m pk :
  trials (plan1 ++ plan2) m pk =
    trials plan1 m pk ++
      (if bool_decide (is_Some (winner plan1 m pk)) then [] else trials plan2 m pk).
Proof.
  induction plan1 as [|[c s] plan1 IH]; simpl; [done|].
  destruct (accepts c m s pk); simpl; [done|].
  by rewrite IH.
Qed.

Lemma winner_app plan1 plan2 m pk :
  winner (plan1 ++ plan2) m pk =
    match winner plan1 m pk with
    | Some c => Some c
    | None => winner plan2 m pk
    end.
Proof.
  induction plan1 as [|[c s] plan1 IH]; simpl; [done|].
  by destruct (accepts c m s pk).
Qed.

Lemma winner_in_plan plan m pk c :
  winner plan m pk = Some c → ∃ s, (c, s) ∈ plan ∧ accepts c m s pk = true.
Proof.
  induction plan as [|[c' s'] plan IH]; simpl; [done|].
  destruct (accepts c' m s' pk) eqn:E.
  - intros [= <-]. exists s'. split; [left | done].
  - intros [s [Hin Hacc]]%IH. exists s. split; [by right | done].
Qed.

Lemma trials_in_plan plan m pk a :
  a ∈ trials plan m pk →
  (att_crypto a, att_signature a) ∈ plan ∧ att_message a = m ∧ att_publicKey a = pk.
Proof.
  induction plan as [|[c s] plan IH]; simpl; [by intros ?%elem_of_nil|].
  intros [->|Hin]%elem_of_cons.
  - simpl. split; [left | done].
  - destruct (accepts c m s pk); [by apply elem_of_nil in Hin|].
    destruct (IH Hin) as (? & ? & ?). split; [by right | done].
Qed.

Lemma trials_length plan m pk : length (trials plan m pk) ≤ length plan.
Proof.
  induction plan as [|[c s] plan IH]; simpl; [done|].
  destruct (accepts c m s pk); simpl; lia.
Qed.

(** The scan of [verifyDetect] over the table entries of [families] is the
    ordered trial of those families on the input's signature. *)
Lemma verifiers_some_trials families r i :
  verifiers_some (entry <$> families) r i =
    let plan := unstripped (Input.signature i) families in
    (trials plan (Input.message i) (Input.publicKey i),
     (match winner plan (Input.message i) (Input.publicKey i) with
      | Some c => Result.with_crypto (named c) r
      | None => r
      end,
      bool_decide (is_Some (winner plan (Input.message i) (Input.publicKey i))))).
Proof.
  induction families as [|c families IH]; simpl; [done|].
  unfold accepts.
  destruct (checkOf c (Bytes (Input.message i)) (Input.signature i) (Input.publicKey i))
    as [[]|e] eqn:E; simpl; [done| |];
    simpl in IH; unfold fmap in IH; by rewrite IH.
Qed.

Lemma verifyDetectWith_trials families r i :
  Result.crypto r = none →
  Result.publicKey r = Input.publicKey i →
  verifyDetectWith r i (entry <$> families) =
    let plan := unstripped (Input.signature i) families in
    (trials plan (Input.message i) (Input.publicKey i),
     Ok (verdict plan (Result.isWrapped r) (Input.message i) (Input.publicKey i))).
Proof.
  intros Hnone Hpk. unfold verifyDetectWith. rewrite verifiers_some_trials. simpl.
  unfold verdict. destruct r as [c v w k]; simpl in *; subst.
  by destruct (winner _ _ _).
Qed.

(** A pass never changes [isWrapped] or [publicKey], whatever it finds. *)
Lemma verdict_isWrapped plan w m pk : Result.isWrapped (verdict plan w m pk) = w.
Proof. unfold verdict. by destruct (winner _ _ _). Qed.

Lemma verdict_publicKey plan w m pk : Result.publicKey (verdict plan w m pk) = pk.
Proof. unfold verdict. by destruct (winner _ _ _). Qed.

Lemma verdict_crypto plan w m pk :
  Result.crypto (verdict plan w m pk) =
    match winner plan m pk with Some c => named c | None => none end.
Proof. unfold verdict. by destruct (winner _ _ _). Qed.

Lemma verdict_isValid plan w m pk :
  Result.isValid (verdict plan w m pk) = bool_decide (is_Some (winner plan m pk)).
Proof.
  unfold verdict. by destruct (winner _ _ _).
Qed.

Lemma verdict_app plan1 plan2 w m pk :
  verdict (plan1 ++ plan2) w m pk =
    match winner plan1 m pk with
    | Some _ => verdict plan1 w m pk
    | None => verdict plan2 w m pk
    end.
Proof.
  unfold verdict. rewrite winner_app. by destruct (winner plan1 m pk).
Qed.

(** *** One pass, branch by branch *)

Lemma includes_true {A} `{EqDecision A} (xs : list A) (x : A) :
  includes xs x = true ↔ x ∈ xs.
Proof. unfold includes. apply bool_decide_eq_true. Qed.

Lemma includes_false {A} `{EqDecision A} (xs : list A) (x : A) :
  includes xs x = false ↔ x ∉ xs.
Proof. unfold includes. apply bool_decide_eq_false. Qed.

Lemma low_prefix_not_3 (b : option N) :
  b ∈ [Some 0; Some 1; Some 2]%N → bool_decide (b = Some 3%N) = false.
Proof.
  intros Hb. apply bool_decide_eq_false. intros ->.
  rewrite !elem_of_cons, elem_of_nil in Hb.
  destruct Hb as [Hb|[Hb|[Hb|[]]]]; discriminate Hb.
Qed.

Lemma includes_65_66 (n : nat) : n = 65 ∨ n = 66 → includes [65; 66] n = true.
Proof. by intros [-> | ->]. Qed.

Lemma verifyDetect_pass r m pk s :
  Result.crypto r = none →
  Result.publicKey r = pk →
  verifyDetect r (Input.mk m pk s) =
    (trials (unstripped s allFamilies) m pk,
     Ok (verdict (unstripped s allFamilies) (Result.isWrapped r) m pk)).
Proof.
  intros Hc Hk. unfold verifyDetect.
  change (VERIFIERS ++ VERIFIERS_ECDSA) with (entry <$> allFamilies).
  by rewrite verifyDetectWith_trials.
Qed.

Lemma verifyMultisig_mldsa r m pk s :
  at0 s = Some 3%N →
  length s = MLDSA_SIGNATURE_LENGTH + 1 →
  Result.crypto r = none →
  Result.publicKey r = pk →
  verifyMultisig r (Input.mk m pk s) =
    (trials (stripped s [mldsa]) m pk,
     Ok (verdict (stripped s [mldsa]) (Result.isWrapped r) m pk)).
Proof.
  intros H3 Hlen Hc Hk. unfold verifyMultisig. cbn [Input.signature].
  rewrite (bool_decide_true (at0 s = Some 3%N)) by done.
  rewrite (bool_decide_true (length s = _ + 1)) by done.
  rewrite andb_false_r. cbn [andb negb].
  change [(mldsa, mldsaVerify)] with (entry <$> [mldsa]).
  by rewrite verifyDetectWith_trials.
Qed.

Lemma verifyMultisig_66 r m pk s :
  at0 s ∈ [Some 0; Some 1; Some 2]%N →
  length s = 66 →
  Result.crypto r = none →
  Result.publicKey r = pk →
  verifyMultisig r (Input.mk m pk s) =
    (trials (stripped s [ecdsa; ethereum]) m pk,
     Ok (verdict (stripped s [ecdsa; ethereum]) (Result.isWrapped r) m pk)).
Proof.
  intros Hb Hlen Hc Hk. unfold verifyMultisig. cbn [Input.signature].
  rewrite (proj2 (includes_true _ (at0 s))) by done.
  rewrite (includes_65_66 (length s)) by auto.
  rewrite (low_prefix_not_3 _ Hb). cbn [andb orb negb].
  rewrite (bool_decide_true (length s = 66)) by done.
  rewrite VERIFIERS_ECDSA_entries.
  by rewrite verifyDetectWith_trials.
Qed.

Lemma verifyMultisig_65 r m pk s :
  at0 s ∈ [Some 0; Some 1; Some 2]%N →
  length s = 65 →
  Result.crypto r = none →
  Result.publicKey r = pk →
  verifyMultisig r (Input.mk m pk s) =
    let plan := stripped s [ed25519; mldsa; sr25519] ++ unstripped s [ecdsa; ethereum] in
    (trials plan m pk, Ok (verdict plan (Result.isWrapped r) m pk)).
Proof.
  intros Hb Hlen Hc Hk. unfold verifyMultisig. cbn [Input.signature].
  rewrite (proj2 (includes_true _ (at0 s))) by done.
  rewrite (includes_65_66 (length s)) by auto.
  rewrite (low_prefix_not_3 _ Hb). cbn [andb orb negb].
  rewrite (bool_decide_false (length s = 66)) by lia.
  rewrite VERIFIERS_entries, VERIFIERS_ECDSA_entries.
  rewrite verifyDetectWith_trials by done.
  cbn zeta. unfold mbind at 1, Traced_bind.
  cbn [Input.with_signature Input.signature Input.message Input.publicKey].
  change (unstripped (subarray1 s) [ed25519; mldsa; sr25519])
    with (stripped s [ed25519; mldsa; sr25519]).
  remember (stripped s [ed25519; mldsa; sr25519]) as p1 eqn:Ep1.
  remember (unstripped s [ecdsa; ethereum]) as p2 eqn:Ep2.
  rewrite trials_app, verdict_app, verdict_isValid.
  destruct (winner p1 m pk) as [c|] eqn:W1.
  - rewrite (bool_decide_true (is_Some (Some c))) by eauto.
    cbn [negb]. unfold mbind, Traced_bind, mret, Traced_ret.
    rewrite verdict_isValid, W1.
    rewrite (bool_decide_true (is_Some (Some c))) by eauto.
    done.
  - rewrite (bool_decide_false (is_Some None)) by (by intros [? ?]).
    cbn [negb].
    rewrite verifyDetectWith_trials
      by (by rewrite ?verdict_crypto, ?verdict_publicKey, ?W1).
    cbn zeta. cbn [Input.signature Input.message Input.publicKey].
    rewrite <- Ep2, verdict_isWrapped.
    unfold mbind, Traced_bind, mret, Traced_ret.
    rewrite verdict_isValid. unfold verdict.
    destruct (winner p2 m pk) as [c|] eqn:W2.
    + rewrite (bool_decide_true (is_Some (Some c))) by eauto.
      cbn [negb]. by rewrite app_nil_r.
    + rewrite (bool_decide_false (is_Some None)) by (by intros [? ?]).
      cbn [negb]. by rewrite app_nil_r.
Qed.

(** The shape test, read as the three cases of [verifyMultisig]. *)
Lemma isPrefixed_cases s :
  isPrefixed s = true ↔
    (at0 s = Some 3%N ∧ length s = MLDSA_SIGNATURE_LENGTH + 1)
    ∨ (at0 s ∈ [Some 0; Some 1; Some 2]%N ∧ length s = 66)
    ∨ (at0 s ∈ [Some 0; Some 1; Some 2]%N ∧ length s = 65).
Proof.
  unfold isPrefixed.
  rewrite orb_true_iff, !andb_true_iff, !includes_true, !bool_decide_eq_true.
  rewrite !elem_of_cons, !elem_of_nil. tauto.
Qed.

Lemma getVerifyFn_prefixed s : isPrefixed s = true → getVerifyFn s = verifyMultisig.
Proof. unfold getVerifyFn, isPrefixed. by intros ->. Qed.

Lemma getVerifyFn_bare s : isPrefixed s = false → getVerifyFn s = verifyDetect.
Proof. unfold getVerifyFn, isPrefixed. by intros ->. Qed.

(** Every pass of [signatureVerify] is an ordered trial over some plan of
    at most five entries. *)
Lemma getVerifyFn_pass s pk :
  ∃ plan, length plan ≤ 5 ∧
    ∀ r m, Result.crypto r = none → Result.publicKey r = pk →
      getVerifyFn s r (Input.mk m pk s) =
        (trials plan m pk, Ok (verdict plan (Result.isWrapped r) m pk)).
Proof.
  destruct (isPrefixed s) eqn:Hp.
  - rewrite (getVerifyFn_prefixed _ Hp).
    apply isPrefixed_cases in Hp as [[H3 Hl]|[[Hb Hl]|[Hb Hl]]].
    + eexists. split; [|intros; by apply verifyMultisig_mldsa]. simpl; lia.
    + eexists. split; [|intros; by apply verifyMultisig_66]. simpl; lia.
    + eexists. split; [|intros; by apply verifyMultisig_65]. simpl; lia.
  - rewrite (getVerifyFn_bare _ Hp).
    eexists. split; [|intros; by apply verifyDetect_pass]. simpl; lia.
Qed.

(** *** The whole of [signatureVerify] *)

Lemma signatureVerify_passes plan message signature addressOrPublicKey pk :
  length (u8aToU8a signature) ∈ validLengths →
  decodeAddress addressOrPublicKey = Ok pk →
  (∀ r m, Result.crypto r = none → Result.publicKey r = pk →
     getVerifyFn (u8aToU8a signature) r (Input.mk m pk (u8aToU8a signature)) =
       (trials plan m pk, Ok (verdict plan (Result.isWrapped r) m pk))) →
  signatureVerify message signature addressOrPublicKey =
    twoPass plan (u8aToU8a message) pk.
Proof.
  intros Hlen Hpk Hpass. unfold signatureVerify.
  rewrite (proj2 (includes_true _ _) Hlen). cbn [negb].
  rewrite Hpk. unfold untraced. unfold mbind at 1, Traced_bind. cbn zeta.
  cbn [Input.message].
  rewrite Hpass by done. cbn [Result.isWrapped].
  unfold mbind, Traced_bind. cbn [app].
  rewrite verdict_isWrapped, verdict_crypto.
  unfold twoPass, ethereumWrappedOnly, toggled.
  set (m := u8aToU8a message).
  destruct (winner plan m pk) as [c|] eqn:W.
  - rewrite (bool_decide_true (named c ≠ none)) by done.
    rewrite (bool_decide_true (is_Some (Some c))) by eauto.
    cbn [orb]. unfold mret, Traced_ret. by rewrite app_nil_r.
  - rewrite (bool_decide_false (none ≠ none)) by (by intros ?).
    rewrite (bool_decide_false (is_Some None)) by (by intros [? ?]).
    cbn [orb].
    destruct (u8aIsWrapped m true && negb (u8aIsWrapped m false)) eqn:Hw.
    + unfold mret, Traced_ret. by rewrite app_nil_r.
    + unfold Input.with_message.
      cbn [Input.publicKey Input.signature Input.message].
      rewrite Hpass by (by rewrite ?verdict_crypto, ?verdict_publicKey, ?W).
      by rewrite verdict_isWrapped.
Qed.

Ltac in_list :=
  unfold validLengths; rewrite !elem_of_cons;
  repeat first [left; reflexivity | right].

Lemma twoPass_log plan m pk a :
  a ∈ (twoPass plan m pk).1 →
  (att_crypto a, att_signature a) ∈ plan
  ∧ att_publicKey a = pk
  ∧ (att_message a = m ∨ att_message a = toggled m).
Proof.
  unfold twoPass.
  destruct (bool_decide _ || _); cbn [fst].
  - intros (? & ? & ?)%trials_in_plan. auto.
  - intros [Hin|Hin]%elem_of_app; apply trials_in_plan in Hin as (? & ? & ?); auto.
Qed.

Lemma twoPass_length plan m pk : length (twoPass plan m pk).1 ≤ 2 * length plan.
Proof.
  unfold twoPass. pose proof (trials_length plan m pk).
  pose proof (trials_length plan (toggled m) pk).
  destruct (bool_decide _ || _); cbn [fst]; rewrite ?length_app; lia.
Qed.

Lemma unstripped_signature s families c s' :
  (c, s') ∈ unstripped s families → c ∈ families ∧ s' = s.
Proof.
  unfold unstripped. intros (c' & [= -> ->] & Hin)%list_elem_of_fmap. done.
Qed.

Lemma signatureVerify_bad_length message signature addressOrPublicKey :
  length (u8aToU8a signature) ∉ validLengths →
  signatureVerify message signature addressOrPublicKey =
    ([], Throw (InvalidSignatureLength (length (u8aToU8a signature)))).
Proof.
  intros Hlen. unfold signatureVerify.
  by rewrite (proj2 (includes_false _ _) Hlen).
Qed.

(** [signatureVerify] throws nothing of its own but the length error: any
    other exception comes out of [decodeAddress]. *)
Lemma signatureVerify_throws message signature addressOrPublicKey log e :
  signatureVerify message signature addressOrPublicKey = (log, Throw e) →
  log = [] ∧
  (e = InvalidSignatureLength (length (u8aToU8a signature))
   ∨ decodeAddress addressOrPublicKey = Throw e).
Proof.
  destruct (decide (length (u8aToU8a signature) ∈ validLengths)) as [Hlen|Hlen].
  - destruct (decodeAddress addressOrPublicKey) as [pk|e'] eqn:Hpk.
    + destruct (getVerifyFn_pass (u8aToU8a signature) pk) as (plan & _ & Hpass).
      rewrite (signatureVerify_passes plan _ _ _ pk Hlen Hpk Hpass).
      unfold twoPass. by destruct (bool_decide _ || _).
    + unfold signatureVerify.
      rewrite (proj2 (includes_true _ _) Hlen), Hpk. cbn.
      intros [= <- <-]. auto.
  - rewrite signatureVerify_bad_length by done. intros [= <- <-]. auto.
Qed.

(** C1 (amended). For a signature of the prefixed shape and a decodable
    address or public key, [signatureVerify] strips the first byte and then
    tries the families that the LENGTH of the signature selects, not the
    one family the byte names: first byte 3 and length lattice-length+1,
    only the lattice scheme on the stripped signature; length 66 (first
    byte 0, 1 or 2), generic secp256k1 then Ethereum-flavored, both on the
    stripped signature; length 65 (first byte 0, 1 or 2), classic-Ed25519,
    lattice, Sr25519 on the stripped signature and then generic secp256k1
    and Ethereum-flavored on the full signature. Each scan stops at the
    first accepting check, and the whole is run a second time on the
    toggled message as [twoPass] says. *)
Theorem signatureVerify_prefixed_tries_by_length
    message signature addressOrPublicKey pk :
  let s := u8aToU8a signature in
  let m := u8aToU8a message in
  decodeAddress addressOrPublicKey = Ok pk →
  (at0 s = Some 3%N → length s = MLDSA_SIGNATURE_LENGTH + 1 →
     signatureVerify message signature addressOrPublicKey =
       twoPass (stripped s [mldsa]) m pk)
  ∧ (at0 s ∈ [Some 0; Some 1; Some 2]%N → length s = 66 →
       signatureVerify message signature addressOrPublicKey =
         twoPass (stripped s [ecdsa; ethereum]) m pk)
  ∧ (at0 s ∈ [Some 0; Some 1; Some 2]%N → length s = 65 →
       signatureVerify message signature addressOrPublicKey =
         twoPass (stripped s [ed25519; mldsa; sr25519]
                    ++ unstripped s [ecdsa; ethereum]) m pk).
Proof.
  intros s m Hpk. split_and!.
  - intros H3 Hlen. apply signatureVerify_passes; [|done|].
    + fold s. rewrite Hlen. in_list.
    + intros r m' Hc Hk. fold s.
      rewrite getVerifyFn_prefixed by (apply isPrefixed_cases; auto).
      by apply verifyMultisig_mldsa.
  - intros Hb Hlen. apply signatureVerify_passes; [|done|].
    + fold s. rewrite Hlen. in_list.
    + intros r m' Hc Hk. fold s.
      rewrite getVerifyFn_prefixed by (apply isPrefixed_cases; auto).
      by apply verifyMultisig_66.
  - intros Hb Hlen. apply signatureVerify_passes; [|done|].
    + fold s. rewrite Hlen. in_list.
    + intros r m' Hc Hk. fold s.
      rewrite getVerifyFn_prefixed by (apply isPrefixed_cases; auto).
      by apply verifyMultisig_65.
Qed.

(** C2 (amended). For a bare-classified signature of a valid length and a
    decodable address or public key, [signatureVerify] tries, in order,
    classic-Ed25519, lattice, Sr25519, generic secp256k1 and
    Ethereum-flavored secp256k1, every one of them against the full,
    unstripped signature; the scan stops at the first family whose native
    check succeeds, which is recorded as the result's crypto with isValid
    true; when none succeeds (on the message and, if a second pass is made,
    on the toggled message) the result is isValid false with crypto
    "none". *)
Theorem signatureVerify_bare_tries_full_signature
    message signature addressOrPublicKey pk :
  let s := u8aToU8a signature in
  let m := u8aToU8a message in
  isPrefixed s = false →
  length s ∈ validLengths →
  decodeAddress addressOrPublicKey = Ok pk →
  signatureVerify message signature addressOrPublicKey =
    twoPass (unstripped s [ed25519; mldsa; sr25519; ecdsa; ethereum]) m pk
  ∧ (∀ a, a ∈ (signatureVerify message signature addressOrPublicKey).1 →
       att_signature a = s).
Proof.
  intros s m Hbare Hlen Hpk.
  assert (signatureVerify message signature addressOrPublicKey =
            twoPass (unstripped s allFamilies) m pk) as Heq.
  { apply signatureVerify_passes; [done..|].
    intros r m' Hc Hk. fold s. rewrite getVerifyFn_bare by done.
    by apply verifyDetect_pass. }
  split; [done|].
  intros a. rewrite Heq. intros (Hin & _)%twoPass_log.
  by apply unstripped_signature in Hin as [_ ?].
Qed.

(** C3 (amended). A signature whose length is in the prefixed-format
    window (65, 66 or lattice-length+1) but whose first byte is outside
    {0,1,2,3} is not a format error for [signatureVerify]: it is classified
    as bare, the five families are tried on the full signature, and an
    ordinary result is returned. The "Unknown crypto type" error is what
    [verifyMultisig] itself throws on such a signature, before any check;
    [getVerifyFn] never hands it one. *)
Theorem signatureVerify_unknown_prefix_is_bare
    message signature addressOrPublicKey pk :
  let s := u8aToU8a signature in
  let m := u8aToU8a message in
  length s ∈ [65; 66; MLDSA_SIGNATURE_LENGTH + 1] →
  at0 s ∉ [Some 0; Some 1; Some 2; Some 3]%N →
  decodeAddress addressOrPublicKey = Ok pk →
  signatureVerify message signature addressOrPublicKey =
    twoPass (unstripped s [ed25519; mldsa; sr25519; ecdsa; ethereum]) m pk
  ∧ is_Ok (signatureVerify message signature addressOrPublicKey).2 = true
  ∧ (∀ r m', verifyMultisig r (Input.mk m' pk s)
             = ([], Throw (UnknownCryptoType (at0 s)))).
Proof.
  intros s m Hlen Hb Hpk.
  rewrite !elem_of_cons, elem_of_nil in Hlen.
  rewrite !elem_of_cons, elem_of_nil in Hb.
  assert (isPrefixed s = false) as Hbare.
  { apply not_true_is_false. rewrite isPrefixed_cases.
    rewrite !elem_of_cons, elem_of_nil. tauto. }
  assert (signatureVerify message signature addressOrPublicKey =
            twoPass (unstripped s allFamilies) m pk) as Heq.
  { apply signatureVerify_passes; [|done|].
    - fold s. unfold validLengths. rewrite !elem_of_cons. tauto.
    - intros r m' Hc Hk. fold s. rewrite getVerifyFn_bare by done.
      by apply verifyDetect_pass. }
  split; [done|]. split.
  - rewrite Heq. unfold twoPass. by destruct (bool_decide _ || _).
  - intros r m'. unfold verifyMultisig. cbn [Input.signature].
    rewrite (proj2 (includes_false [Some 0; Some 1; Some 2]%N (at0 s)))
      by (rewrite !elem_of_cons, elem_of_nil; tauto).
    rewrite (bool_decide_false (at0 s = Some 3%N)) by tauto.
    done.
Qed.

(** C4. A signature whose length is not one of 64, 65, 66, the lattice
    scheme's signature length, or that length plus one makes
    [signatureVerify] throw the length error with no native check tried
    (the log is empty), whatever the message and the address are; in
    particular a 67-byte signature is rejected this way, the lattice
    length being neither 66 nor 67. *)
Theorem signatureVerify_length_error message signature addressOrPublicKey :
  let s := u8aToU8a signature in
  (length s ∉ [64; 65; 66; MLDSA_SIGNATURE_LENGTH; MLDSA_SIGNATURE_LENGTH + 1] →
     signatureVerify message signature addressOrPublicKey =
       ([], Throw (InvalidSignatureLength (length s))))
  ∧ (length s = 67 → MLDSA_SIGNATURE_LENGTH ≠ 66 → MLDSA_SIGNATURE_LENGTH ≠ 67 →
       signatureVerify message signature addressOrPublicKey =
         ([], Throw (InvalidSignatureLength 67))).
Proof.
  intros s. split; [apply signatureVerify_bad_length|].
  intros H67 H1 H2. rewrite <- H67. apply signatureVerify_bad_length.
  fold s. unfold validLengths. rewrite !elem_of_cons, elem_of_nil. lia.
Qed.

(** C5. With a valid signature length and a decodable address,
    [signatureVerify] makes one pass of the selected verify function; when
    that pass recorded an algorithm its result is returned as it is and
    nothing else is tried; when it recorded none and the message is
    Ethereum-wrapped only, the result is returned too; otherwise exactly
    one more pass of the same function is made, on the message with its
    <Bytes> wrapping toggled (unwrapped when it was wrapped, wrapped when it
    was not), and its result is final. A pass makes at most five native
    checks, so at most ten are made in all. *)
Theorem signatureVerify_at_most_two_passes
    message signature addressOrPublicKey pk :
  let s := u8aToU8a signature in
  let m := u8aToU8a message in
  let verifyFn := getVerifyFn s in
  let result0 := Result.mk none false (u8aIsWrapped m true) pk in
  length s ∈ validLengths →
  decodeAddress addressOrPublicKey = Ok pk →
  ∃ log1 result1,
    verifyFn result0 (Input.mk m pk s) = (log1, Ok result1)
    ∧ length log1 ≤ 5
    ∧ if bool_decide (Result.crypto result1 ≠ none) || ethereumWrappedOnly m
      then signatureVerify message signature addressOrPublicKey = (log1, Ok result1)
      else ∃ log2 result2,
        verifyFn result1
          (Input.mk (if u8aIsWrapped m false then u8aUnwrapBytes m else u8aWrapBytes m)
                    pk s) = (log2, Ok result2)
        ∧ length log2 ≤ 5
        ∧ signatureVerify message signature addressOrPublicKey
          = (log1 ++ log2, Ok result2).
Proof.
  intros s m verifyFn result0 Hlen Hpk.
  destruct (getVerifyFn_pass s pk) as (plan & Hplan & Hpass).
  pose proof (signatureVerify_passes plan message signature addressOrPublicKey pk
                Hlen Hpk Hpass) as Heq.
  fold m in Heq. unfold twoPass in Heq.
  exists (trials plan m pk), (verdict plan (u8aIsWrapped m true) m pk).
  split; [by apply Hpass|].
  split; [by etrans; [apply trials_length|]|].
  rewrite verdict_crypto.
  destruct (winner plan m pk) as [c|] eqn:W.
  - rewrite (bool_decide_true (named c ≠ none)) by done.
    by rewrite (bool_decide_true (is_Some (Some c))) in Heq by eauto.
  - rewrite (bool_decide_false (none ≠ none)) by (by intros ?).
    rewrite (bool_decide_false (is_Some None)) in Heq by (by intros [? ?]).
    cbn [orb] in *.
    destruct (ethereumWrappedOnly m); [done|].
    exists (trials plan (toggled m) pk),
           (verdict plan (u8aIsWrapped m true) (toggled m) pk).
    split; [|split; [by etrans; [apply trials_length|] | done]].
    unfold verifyFn. rewrite Hpass by (by rewrite ?verdict_crypto, ?verdict_publicKey, ?W).
    by rewrite verdict_isWrapped.
Qed.

End VerifyFacts.

(** ** The HDKD dispatcher and the pair *)

Section PairFacts.
Context `{V : Verify.Primitives} `{H : Hdkd.Primitives} `{P : Pair.Primitives}.
Import Hdkd Pair.

Implicit Types (s : State) (pair : Keypair) (path : list DeriveJunction).

Lemma generators_total (type : KeypairType) : is_Some (generators type).
Proof. destruct type; by eexists. Qed.

Lemma keyFromPath_nil pair (type : KeypairType) : keyFromPath pair [] type = Ok pair.
Proof. by destruct type. Qed.

Lemma foldPath_singleton (keyHdkd : StepFn) pair junction :
  foldPath keyHdkd pair [junction] = keyHdkd pair junction.
Proof. simpl. unfold mbind, Res_bind. by destruct (keyHdkd pair junction). Qed.

(** The address getters read [type] and [publicKey] only. *)
Lemma address_reads_type_publicKey s s' :
  type s' = type s → publicKey s' = publicKey s →
  address s' = address s ∧ addressRaw s' = addressRaw s.
Proof.
  intros Ht Hk. unfold address, encodeAddress, addressRaw. by rewrite Ht, Hk.
Qed.

Lemma not_locked_is_Some s :
  isLocked (secretKey s) = false → ∃ sk, secretKey s = Some sk ∧ u8aEmpty sk = false.
Proof. unfold isLocked. destruct (secretKey s); [eauto | done]. Qed.

(** C6 (amended). [derive] on an Ethereum-typed pair throws the usage
    error, whatever the path, the metadata and the lock state. The
    registry of the HDKD dispatcher is total: it gives each of the five
    types a step function, and to the Ethereum-style type the step of
    generic secp256k1 ([keyHdkdEcdsa]); [keyFromPath] on type ethereum takes
    the same steps as on type ecdsa and returns what [keyHdkdEcdsa]
    returns. *)
Theorem ethereum_derive_throws_but_registry_steps_as_ecdsa :
  (∀ s suri meta, type s = ethereum → derive suri meta s = Throw UnableToDerive)
  ∧ generators ethereum = Some keyHdkdEcdsa
  ∧ (∀ type, is_Some (generators type))
  ∧ (∀ pair path, keyFromPath pair path ethereum = keyFromPath pair path ecdsa)
  ∧ (∀ pair junction, keyFromPath pair [junction] ethereum = keyHdkdEcdsa pair junction).
Proof.
  split_and!.
  - intros s suri meta Ht. unfold derive. by rewrite Ht.
  - reflexivity.
  - apply generators_total.
  - reflexivity.
  - intros pair junction. unfold keyFromPath. cbn [generators].
    apply foldPath_singleton.
Qed.

(** C7 (amended). Folding an empty junction path through [keyFromPath]
    returns the keypair unchanged, for every keypair and every type.
    Consequently, for every type except Ethereum-style, [derive] with a
    derivation string whose path is empty, on an UNLOCKED pair, returns a
    pair with the same public key, secret key, type and address; on a
    locked pair it throws the locked-keypair error instead. *)
Theorem derive_empty_path_on_unlocked_pair :
  (∀ pair type, keyFromPath pair [] type = Ok pair)
  ∧ (∀ s suri meta,
       type s ≠ ethereum →
       keyExtractPath suri = Ok [] →
       isLocked (secretKey s) = false →
       ∃ s', derive suri meta s = Ok s'
             ∧ publicKey s' = publicKey s
             ∧ secretKey s' = secretKey s
             ∧ type s' = type s
             ∧ address s' = address s)
  ∧ (∀ s suri meta,
       type s ≠ ethereum →
       isLocked (secretKey s) = true →
       derive suri meta s = Throw CannotDeriveLocked).
Proof.
  split; [apply keyFromPath_nil|]. split.
  - intros s suri meta Ht Hpath Hunlocked.
    destruct (not_locked_is_Some s Hunlocked) as (sk & Hsk & _).
    unfold derive.
    rewrite (bool_decide_false (type s = ethereum)) by done.
    rewrite Hunlocked, Hpath. cbn. rewrite keyFromPath_nil. cbn.
    eexists. split; [done|]. cbn. by rewrite Hsk.
  - intros s suri meta Ht Hlocked. unfold derive.
    rewrite (bool_decide_false (type s = ethereum)) by done.
    by rewrite Hlocked.
Qed.

(** *** Locking *)

Lemma lock_state s : (lock s).1 = with_secretKey (Some []) s.
Proof. reflexivity. Qed.

Lemma after_sealed s0 s (c : Call) : decodes c = false → sealed s0 s → sealed s0 (after c s).
Proof. destruct c; try done; intros _ (? & ? & ?); by repeat split. Qed.

Lemma afterAll_sealed s0 s (calls : list Call) :
  Forall (λ c, decodes c = false) calls → sealed s0 s → sealed s0 (afterAll calls s).
Proof.
  intros Hcalls. revert s.
  induction Hcalls as [|c calls Hc _ IH]; intros s Hs; [done|].
  cbn. apply IH. by apply after_sealed.
Qed.

Lemma sign_locked s message options :
  isLocked (secretKey s) = true → sign message options s = Throw CannotSignLocked.
Proof. unfold sign. by intros ->. Qed.

(** C8. On an unlocked pair (the empty byte array counting as empty),
    [lock] is idempotent and leaves the public key, the address and the raw
    address as they were; after it, and after any further calls that decode
    no container ([decodePkcs8], [unlock], [encodePkcs8] and [toJson] are
    the ones that do), the pair is locked, every [sign] throws the
    locked-key error, and the public key and address are still the
    original ones. *)
Theorem lock_idempotent_keeps_address_blocks_sign s :
  u8aEmpty [] = true →
  isLocked (secretKey s) = false →
  let locked := (lock s).1 in
  (lock locked).1 = locked
  ∧ publicKey locked = publicKey s
  ∧ address locked = address s
  ∧ addressRaw locked = addressRaw s
  ∧ (∀ calls, Forall (λ c, decodes c = false) calls →
       let s' := afterAll calls locked in
       isLocked (secretKey s') = true
       ∧ (∀ message options, sign message options s' = Throw CannotSignLocked)
       ∧ publicKey s' = publicKey s
       ∧ address s' = address s).
Proof.
  intros Hempty _ locked. split_and!; try done.
  intros calls Hcalls s'.
  assert (sealed s s') as (Ht & Hk & Hsk).
  { apply afterAll_sealed; [done|]. by split_and!. }
  assert (isLocked (secretKey s') = true) as Hlocked by (by rewrite Hsk).
  split_and!; try done.
  - intros. by apply sign_locked.
  - by apply address_reads_type_publicKey.
Qed.

(** *** Encoding a locked pair *)

Lemma recode_locked_with_container s passphrase container :
  isLocked (secretKey s) = true →
  encoded s = Some container →
  recode passphrase s =
    match decodePkcs8 passphrase (Some container) s with
    | (s1, Ok _) =>
        match encodePair (mkInfo (publicKey s1) (secretKey s1)) passphrase (type s1) with
        | Ok encoded' => (with_encoded (Some encoded') None s1, Ok encoded')
        | Throw e => (s1, Throw e)
        end
    | (s1, Throw e) => (s1, Throw e)
    end.
Proof.
  intros Hlocked Henc. unfold recode.
  unfold mbind at 1, Method_bind, get at 1.
  rewrite Hlocked, Henc.
  rewrite (bool_decide_true (is_Some (Some container))) by eauto.
  cbn [andb]. unfold mbind at 1, Method_bind.
  destruct (decodePkcs8 passphrase (Some container) s) as [s1 [[]|e]]; [|done].
  unfold mbind, Method_bind, get, lift, put, mret, Method_ret.
  by destruct (encodePair _ _ _).
Qed.

Lemma decodePkcs8_fails s passphrase userEncoded e :
  decodePair passphrase
    (match userEncoded with Some c => Some c | None => encoded s end) (encTypes s)
    = Throw e →
  decodePkcs8 passphrase userEncoded s = (s, Throw e).
Proof.
  intros Hd. unfold decodePkcs8, mbind, Method_bind, get, lift. by rewrite Hd.
Qed.

Lemma decodePkcs8_expanded s passphrase userEncoded decoded :
  type s ≠ mldsa →
  decodePair passphrase
    (match userEncoded with Some c => Some c | None => encoded s end) (encTypes s)
    = Ok decoded →
  length (Hdkd.secretKey decoded) = 64 →
  decodePkcs8 passphrase userEncoded s =
    (with_keys (Hdkd.publicKey decoded) (Some (Hdkd.secretKey decoded)) s, Ok tt).
Proof.
  intros Ht Hd Hlen. unfold decodePkcs8, mbind, Method_bind, get, lift. rewrite Hd.
  rewrite (bool_decide_false (type s = mldsa)) by done.
  by rewrite (bool_decide_true (length _ = 64)) by done.
Qed.

(** C9. On a locked pair that holds an encoded container, [encodePkcs8]
    (and [toJson], once its address is computed) first decodes that
    container with the passphrase it was given: when the decoding throws,
    that exception is the outcome and the pair is unchanged; when it
    succeeds, the keys [decodePkcs8] assigned are the ones encoded and the
    ones the pair holds afterwards. For a type other than the lattice
    scheme and a decoded 64-byte secret key, the pair ends with the decoded
    public and secret key, and is unlocked when that secret key is not
    empty. *)
Theorem encode_on_locked_pair_decodes_container s passphrase container :
  isLocked (secretKey s) = true →
  encoded s = Some container →
  (∀ e, decodePair passphrase (Some container) (encTypes s) = Throw e →
        encodePkcs8 passphrase s = (s, Throw e))
  ∧ (∀ s1, decodePkcs8 passphrase (Some container) s = (s1, Ok tt) →
       encodePkcs8 passphrase s =
         match encodePair (mkInfo (publicKey s1) (secretKey s1)) passphrase (type s1) with
         | Ok encoded' => (with_encoded (Some encoded') None s1, Ok encoded')
         | Throw e => (s1, Throw e)
         end
       ∧ publicKey (encodePkcs8 passphrase s).1 = publicKey s1
       ∧ secretKey (encodePkcs8 passphrase s).1 = secretKey s1)
  ∧ (∀ decoded encoded',
       type s ≠ mldsa →
       decodePair passphrase (Some container) (encTypes s) = Ok decoded →
       length (Hdkd.secretKey decoded) = 64 →
       encodePair (mkInfo (Hdkd.publicKey decoded) (Some (Hdkd.secretKey decoded)))
                  passphrase (type s) = Ok encoded' →
       encodePkcs8 passphrase s =
         (mkState (type s) (Hdkd.publicKey decoded) (Some (Hdkd.secretKey decoded))
                  (meta s) (Some encoded') None,
          Ok encoded')
       ∧ isLocked (secretKey (encodePkcs8 passphrase s).1)
         = u8aEmpty (Hdkd.secretKey decoded))
  ∧ (∀ address, toJsonAddress s = Ok address →
       toJson passphrase s =
         match encodePkcs8 passphrase s with
         | (s1, Ok encoded') =>
             (s1, Ok (pairToJson (type s) address (meta s) encoded' (truthy passphrase)))
         | (s1, Throw e) => (s1, Throw e)
         end).
Proof.
  intros Hlocked Henc. unfold encodePkcs8.
  pose proof (recode_locked_with_container s passphrase container Hlocked Henc) as Hre.
  split_and!.
  - intros e He. rewrite Hre. by rewrite (decodePkcs8_fails s passphrase (Some container) e).
  - intros s1 Hs1. rewrite Hre, Hs1. by destruct (encodePair _ _ _).
  - intros decoded encoded' Ht Hd Hlen Hen. rewrite Hre.
    rewrite (decodePkcs8_expanded s passphrase (Some container) decoded) by done.
    cbn. by rewrite Hen.
  - intros address Haddr. unfold toJson.
    unfold mbind at 1, Method_bind, get at 1.
    unfold mbind at 1, Method_bind, lift at 1. rewrite Haddr.
    unfold mbind at 1, Method_bind.
    by destruct (recode passphrase s) as [s1 [enc|e]].
Qed.

(** *** Verifying with a lattice pair *)

(** C10. On a pair of the lattice scheme, [verify] never throws: it
    returns what [mldsaVerify] returns on the message, the raw signature
    and the raw signer public key (no address transform, no
    [signatureVerify]), and false when [mldsaVerify] throws; so also for a
    signature whose length [signatureVerify] rejects with the length
    error. *)
Theorem mldsa_verify_never_throws s message signature signerPublic :
  type s = mldsa →
  verify message signature signerPublic s =
    Ok (match Verify.mldsaVerify message (Verify.u8aToU8a signature)
                                 (Verify.u8aToU8a signerPublic) with
        | Ok b => b
        | Throw _ => false
        end)
  ∧ (∀ e, Verify.mldsaVerify message (Verify.u8aToU8a signature)
                             (Verify.u8aToU8a signerPublic) = Throw e →
          verify message signature signerPublic s = Ok false)
  ∧ (length (Verify.u8aToU8a signature) ∉ Verify.validLengths →
     ∀ addressOrPublicKey,
       is_Ok (Verify.signatureVerify message signature addressOrPublicKey).2 = false
       ∧ is_Ok (verify message signature signerPublic s) = true).
Proof.
  intros Ht. unfold verify. rewrite (bool_decide_true (type s = mldsa)) by done.
  split_and!.
  - by destruct (Verify.mldsaVerify _ _ _).
  - by intros e ->.
  - intros Hlen addressOrPublicKey.
    rewrite signatureVerify_bad_length by done.
    by destruct (Verify.mldsaVerify _ _ _).
Qed.

End PairFacts.

(** ** The theorems on sample inputs, and where the stated behaviour fails *)

Section Evaluation.
Import Verify Sample.

Lemma signatureVerify_prefixed_tries_by_length_witness :
  signatureVerify (P := rejecting) (Str "test") (Bytes (sig x03 4628)) (Bytes key32)
    = twoPass (P := rejecting) (stripped (sig x03 4628) [mldsa]) (utf8 "test") key32
  ∧ signatureVerify (P := rejecting) (Str "test") (Bytes (sig x02 66)) (Bytes key32)
    = twoPass (P := rejecting) (stripped (sig x02 66) [ecdsa; ethereum]) (utf8 "test") key32
  ∧ signatureVerify (P := rejecting) (Str "test") (Bytes (sig x01 65)) (Bytes key32)
    = twoPass (P := rejecting)
        (stripped (sig x01 65) [ed25519; mldsa; sr25519]
           ++ unstripped (sig x01 65) [ecdsa; ethereum])
        (utf8 "test") key32.
Proof.
  split_and!.
  - apply (signatureVerify_prefixed_tries_by_length (P := rejecting)
             (Str "test") (Bytes (sig x03 4628)) (Bytes key32) key32 eq_refl);
      vm_compute; reflexivity.
  - apply (signatureVerify_prefixed_tries_by_length (P := rejecting)
             (Str "test") (Bytes (sig x02 66)) (Bytes key32) key32 eq_refl);
      [compute_done | reflexivity].
  - apply (signatureVerify_prefixed_tries_by_length (P := rejecting)
             (Str "test") (Bytes (sig x01 65)) (Bytes key32) key32 eq_refl);
      [compute_done | reflexivity].
Defined.

(** C1 fails as stated. A 65-byte signature with first byte 0 (the
    discriminator of classic-Ed25519) is of the prefixed shape; with native
    checks that accept nothing, five families are tried on it in each of the
    two passes, the last two on the unstripped 65 bytes; and when the Sr25519
    check accepts the stripped 64 bytes, the result is valid with crypto
    sr25519. *)
Lemma prefixed_byte_0_tries_five_families :
  isPrefixed (P := rejecting) (sig x00 65) = true
  ∧ familiesAndLengths
      (signatureVerify (P := rejecting) (Str "test") (Bytes (sig x00 65)) (Bytes key32))
    = [ (ed25519, 64); (mldsa, 64); (sr25519, 64); (ecdsa, 65); (ethereum, 65);
        (ed25519, 64); (mldsa, 64); (sr25519, 64); (ecdsa, 65); (ethereum, 65) ]
  ∧ (signatureVerify (P := sr25519Accepting) (Str "test") (Bytes (sig x00 65)) (Bytes key32)).2
    = Ok (Result.mk (named sr25519) true false key32).
Proof. split_and!; vm_compute; reflexivity. Qed.

Lemma signatureVerify_bare_tries_full_signature_witness :
  signatureVerify (P := sr25519Accepting) (Str "test") (Bytes (sig x09 64)) (Bytes key32)
    = twoPass (P := sr25519Accepting)
        (unstripped (sig x09 64) [ed25519; mldsa; sr25519; ecdsa; ethereum])
        (utf8 "test") key32
  ∧ (∀ a, a ∈ (signatureVerify (P := sr25519Accepting) (Str "test") (Bytes (sig x09 64))
                 (Bytes key32)).1 → att_signature a = sig x09 64).
Proof.
  apply (signatureVerify_bare_tries_full_signature (P := sr25519Accepting)
           (Str "test") (Bytes (sig x09 64)) (Bytes key32) key32);
    [reflexivity | compute_done | reflexivity].
Defined.

(** C2 fails as stated. A 64-byte signature is bare; every family is handed
    all 64 bytes, none the 63 bytes left after stripping the first; a check
    that accepts exactly 64-byte signatures therefore validates it. *)
Lemma bare_signature_is_not_stripped :
  isPrefixed (P := rejecting) (sig x09 64) = false
  ∧ familiesAndLengths
      (signatureVerify (P := rejecting) (Str "test") (Bytes (sig x09 64)) (Bytes key32))
    = [ (ed25519, 64); (mldsa, 64); (sr25519, 64); (ecdsa, 64); (ethereum, 64);
        (ed25519, 64); (mldsa, 64); (sr25519, 64); (ecdsa, 64); (ethereum, 64) ]
  ∧ familiesAndLengths
      (signatureVerify (P := sr25519Accepting) (Str "test") (Bytes (sig x09 64)) (Bytes key32))
    = [ (ed25519, 64); (mldsa, 64); (sr25519, 64) ]
  ∧ (signatureVerify (P := sr25519Accepting) (Str "test") (Bytes (sig x09 64)) (Bytes key32)).2
    = Ok (Result.mk (named sr25519) true false key32).
Proof. split_and!; vm_compute; reflexivity. Qed.

Lemma signatureVerify_unknown_prefix_is_bare_witness :
  signatureVerify (P := rejecting) (Str "test") (Bytes (sig x04 65)) (Bytes key32)
    = twoPass (P := rejecting)
        (unstripped (sig x04 65) [ed25519; mldsa; sr25519; ecdsa; ethereum])
        (utf8 "test") key32
  ∧ is_Ok (signatureVerify (P := rejecting) (Str "test") (Bytes (sig x04 65)) (Bytes key32)).2
    = true
  ∧ (∀ r m', verifyMultisig (P := rejecting) r (Input.mk m' key32 (sig x04 65))
             = ([], Throw (UnknownCryptoType (Some 4%N)))).
Proof.
  apply (signatureVerify_unknown_prefix_is_bare (P := rejecting)
           (Str "test") (Bytes (sig x04 65)) (Bytes key32) key32);
    [compute_done | compute_done | reflexivity].
Defined.

(** C3 fails as stated. A 65-byte signature with first byte 4 is in the
    prefixed-format window with a first byte outside {0,1,2,3};
    [signatureVerify] does not throw on it: with native checks that accept
    nothing it returns the ordinary negative result, after trying the five
    families twice. *)
Lemma unknown_prefix_is_not_a_format_error :
  signatureVerify (P := rejecting) (Str "test") (Bytes (sig x04 65)) (Bytes key32)
  = ( ((λ c, tried c (utf8 "test") (sig x04 65) key32) <$> allFamilies)
      ++ ((λ c, tried c (utf8 "<Bytes>test</Bytes>") (sig x04 65) key32) <$> allFamilies),
      Ok (Result.mk none false false key32) ).
Proof. vm_compute. reflexivity. Qed.

Lemma signatureVerify_length_error_witness :
  signatureVerify (P := rejecting) (Str "test") (Bytes (sig x00 67)) (Str "not an address")
    = ([], Throw (InvalidSignatureLength 67))
  ∧ signatureVerify (P := sr25519Accepting) (Bytes []) (Bytes (sig x01 63)) (Bytes key32)
    = ([], Throw (InvalidSignatureLength 63)).
Proof.
  split.
  - apply (proj2 (signatureVerify_length_error (P := rejecting)
                    (Str "test") (Bytes (sig x00 67)) (Str "not an address")));
      [reflexivity | cbn; lia | cbn; lia].
  - apply (proj1 (signatureVerify_length_error (P := sr25519Accepting)
                    (Bytes []) (Bytes (sig x01 63)) (Bytes key32))).
    compute_done.
Defined.

Lemma signatureVerify_at_most_two_passes_witness :
  ∃ log1 result1,
    getVerifyFn (P := rejecting) (sig x09 64)
      (Result.mk none false (isWrapped (utf8 "test") true) key32)
      (Input.mk (utf8 "test") key32 (sig x09 64)) = (log1, Ok result1)
    ∧ length log1 ≤ 5
    ∧ if bool_decide (Result.crypto result1 ≠ none)
         || ethereumWrappedOnly (P := rejecting) (utf8 "test")
      then signatureVerify (P := rejecting) (Str "test") (Bytes (sig x09 64)) (Bytes key32)
           = (log1, Ok result1)
      else ∃ log2 result2,
        getVerifyFn (P := rejecting) (sig x09 64) result1
          (Input.mk (if isWrapped (utf8 "test") false
                     then unwrapBytes (utf8 "test") else wrapBytes (utf8 "test"))
                    key32 (sig x09 64)) = (log2, Ok result2)
        ∧ length log2 ≤ 5
        ∧ signatureVerify (P := rejecting) (Str "test") (Bytes (sig x09 64)) (Bytes key32)
          = (log1 ++ log2, Ok result2).
Proof.
  apply (signatureVerify_at_most_two_passes (P := rejecting)
           (Str "test") (Bytes (sig x09 64)) (Bytes key32) key32);
    [compute_done | reflexivity].
Defined.

#[local] Existing Instances steps collaborators.

Lemma ethereum_derive_throws_but_registry_steps_as_ecdsa_witness :
  Pair.derive "//1" None (unlockedPair ethereum) = Throw UnableToDerive
  ∧ Hdkd.keyFromPath (Hdkd.mkKeypair key32 secret64)
      [Hdkd.mkJunction (utf8 "1") true] ethereum
    = appendChainCode (Hdkd.mkKeypair key32 secret64) (Hdkd.mkJunction (utf8 "1") true).
Proof.
  destruct (ethereum_derive_throws_but_registry_steps_as_ecdsa
              (H := steps) (P := collaborators)) as (Hd & _ & _ & _ & Hstep).
  split; [apply Hd; reflexivity | apply Hstep].
Defined.

(** C6 fails as stated. The registry gives the Ethereum-style type a step
    function, and stepping a junction with it returns a derived keypair: no
    "unsupported" entry, no failure. *)
Lemma ethereum_junction_step_returns_a_key :
  Hdkd.generators ethereum = Some appendChainCode
  ∧ Hdkd.keyFromPath (Hdkd.mkKeypair key32 secret64)
      [Hdkd.mkJunction (utf8 "1") true] ethereum
    = Ok (Hdkd.mkKeypair (key32 ++ utf8 "1") (secret64 ++ utf8 "1")).
Proof. split; reflexivity. Qed.

Lemma derive_empty_path_on_unlocked_pair_witness :
  ∃ s', Pair.derive "" None (unlockedPair sr25519) = Ok s'
        ∧ Pair.publicKey s' = key32
        ∧ Pair.secretKey s' = Some secret64
        ∧ Pair.type s' = sr25519
        ∧ Pair.address s' = Pair.address (unlockedPair sr25519).
Proof.
  destruct (derive_empty_path_on_unlocked_pair (H := steps) (P := collaborators))
    as (_ & Hunlocked & _).
  apply (Hunlocked (unlockedPair sr25519) ""%string None);
    [discriminate | reflexivity | reflexivity].
Defined.

(** C7 fails as stated. On a locked pair of a type other than Ethereum,
    [derive] with an empty path returns no pair: it throws. *)
Lemma derive_empty_path_on_locked_pair_throws :
  Pair.keyExtractPath ""%string = Ok []
  ∧ Pair.derive "" None (Pair.lock (unlockedPair sr25519)).1 = Throw CannotDeriveLocked.
Proof. split; reflexivity. Qed.

Lemma lock_idempotent_keeps_address_blocks_sign_witness :
  (Pair.lock (Pair.lock (unlockedPair ed25519)).1).1 = (Pair.lock (unlockedPair ed25519)).1
  ∧ Pair.address (Pair.lock (unlockedPair ed25519)).1 = Pair.address (unlockedPair ed25519)
  ∧ Pair.sign (V := rejecting) (Str "test") (Pair.mkOptions true)
      (Pair.afterAll
         [ Pair.SetMeta {[ "name"%string := Pair.MText "alice" ]};
           Pair.Sign (Str "test") (Pair.mkOptions false);
           Pair.Lock;
           Pair.Derive "//1" None;
           Pair.GetAddress ]
         (Pair.lock (unlockedPair ed25519)).1)
    = Throw CannotSignLocked.
Proof.
  destruct (lock_idempotent_keeps_address_blocks_sign (V := rejecting)
              (P := collaborators) (unlockedPair ed25519) eq_refl eq_refl)
    as (Hidem & _ & Haddr & _ & Hafter).
  split_and!; [exact Hidem | exact Haddr |].
  apply Hafter. repeat constructor.
Defined.

Lemma encode_on_locked_pair_decodes_container_witness :
  Pair.encodePkcs8 None (storedPair ed25519)
    = (Pair.mkState ed25519 key32 (Some secret64) ∅ (Some (secret64 ++ key32)) None,
       Ok (secret64 ++ key32))
  ∧ Pair.isLocked (Pair.secretKey (storedPair ed25519)) = true
  ∧ Pair.isLocked (Pair.secretKey (Pair.encodePkcs8 None (storedPair ed25519)).1) = false.
Proof.
  destruct (encode_on_locked_pair_decodes_container (P := collaborators)
              (storedPair ed25519) None (secret64 ++ key32) eq_refl eq_refl)
    as (_ & _ & Hexpanded & _).
  destruct (Hexpanded (Hdkd.mkKeypair key32 secret64) (secret64 ++ key32))
    as (Hstate & Hlock); [discriminate | reflexivity | reflexivity | reflexivity |].
  split_and!; [exact Hstate | reflexivity | exact Hlock].
Defined.

Lemma mldsa_verify_never_throws_witness :
  Pair.verify (V := mldsaThrowing) (Str "test") (Bytes (sig x00 67)) (Bytes key32)
    (unlockedPair mldsa) = Ok false
  ∧ is_Ok (signatureVerify (P := mldsaThrowing) (Str "test") (Bytes (sig x00 67))
             (Bytes key32)).2 = false.
Proof.
  destruct (mldsa_verify_never_throws (V := mldsaThrowing) (P := collaborators)
              (unlockedPair mldsa) (Str "test") (Bytes (sig x00 67)) (Bytes key32) eq_refl)
    as (_ & Hthrow & Hlen).
  split.
  - apply (Hthrow (Foreign "verify")). reflexivity.
  - apply (Hlen ltac:(compute_done) (Bytes key32)).
Defined.

End Evaluation.

(** ** More on the verification engine *)

Section VerifyMore.
Context `{P : Verify.Primitives}.
Import Verify.

Implicit Types (plan : Plan) (r : Result.t) (i : Input.t) (m pk s : U8a).

Lemma planOf_prefixed_cases s :
  (at0 s = Some 3%N → length s = MLDSA_SIGNATURE_LENGTH + 1 →
     planOf s = stripped s [mldsa])
  ∧ (at0 s ∈ [Some 0; Some 1; Some 2]%N → length s = 66 →
       planOf s = stripped s [ecdsa; ethereum])
  ∧ (at0 s ∈ [Some 0; Some 1; Some 2]%N → length s = 65 →
       planOf s = stripped s [ed25519; mldsa; sr25519] ++ unstripped s [ecdsa; ethereum])
  ∧ (isPrefixed s = false → planOf s = unstripped s allFamilies).
Proof.
  unfold planOf. split_and!.
  - intros H3 Hl. by rewrite !bool_decide_true by done.
  - intros Hb Hl. rewrite (low_prefix_not_3 _ Hb).
    rewrite (proj2 (includes_true _ _) Hb).
    by rewrite (bool_decide_true (length s = 66)) by done.
  - intros Hb Hl. rewrite (low_prefix_not_3 _ Hb).
    rewrite (proj2 (includes_true _ _) Hb).
    rewrite (bool_decide_false (length s = 66)) by lia.
    by rewrite (bool_decide_true (length s = 65)) by done.
  - intros Hbare.
    destruct (bool_decide (at0 s = Some 3%N) && bool_decide (length s = _ + 1)) eqn:E1.
    { apply andb_true_iff in E1 as [?%bool_decide_eq_true ?%bool_decide_eq_true].
      rewrite (proj2 (isPrefixed_cases s)) in Hbare by auto. done. }
    destruct (includes _ (at0 s) && bool_decide (length s = 66)) eqn:E2.
    { apply andb_true_iff in E2 as [?%includes_true ?%bool_decide_eq_true].
      rewrite (proj2 (isPrefixed_cases s)) in Hbare by auto. done. }
    destruct (includes _ (at0 s) && bool_decide (length s = 65)) eqn:E3; [|done].
    apply andb_true_iff in E3 as [?%includes_true ?%bool_decide_eq_true].
    rewrite (proj2 (isPrefixed_cases s)) in Hbare by auto. done.
Qed.

Lemma getVerifyFn_planOf s pk r m :
  Result.crypto r = none → Result.publicKey r = pk →
  getVerifyFn s r (Input.mk m pk s) =
    (trials (planOf s) m pk, Ok (verdict (planOf s) (Result.isWrapped r) m pk)).
Proof.
  intros Hc Hk.
  destruct (planOf_prefixed_cases s) as (P3 & P66 & P65 & Pbare).
  destruct (isPrefixed s) eqn:Hp.
  - rewrite (getVerifyFn_prefixed _ Hp).
    apply isPrefixed_cases in Hp as [[H3 Hl]|[[Hb Hl]|[Hb Hl]]].
    + rewrite P3 by done. by apply verifyMultisig_mldsa.
    + rewrite P66 by done. by apply verifyMultisig_66.
    + rewrite P65 by done. by apply verifyMultisig_65.
  - rewrite (getVerifyFn_bare _ Hp), Pbare by done. by apply verifyDetect_pass.
Qed.

Lemma signatureVerify_planOf message signature addressOrPublicKey pk :
  length (u8aToU8a signature) ∈ validLengths →
  decodeAddress addressOrPublicKey = Ok pk →
  signatureVerify message signature addressOrPublicKey =
    twoPass (planOf (u8aToU8a signature)) (u8aToU8a message) pk.
Proof.
  intros Hlen Hpk. apply signatureVerify_passes; [done..|].
  intros r m Hc Hk. by apply getVerifyFn_planOf.
Qed.

(** Every entry of a plan hands over the signature or the signature without
    its first byte. *)
Lemma planOf_signature s (c : KeypairType) s' :
  (c, s') ∈ planOf s → s' = s ∨ s' = subarray1 s.
Proof.
  unfold planOf, stripped, unstripped.
  repeat case_match; rewrite ?elem_of_app, !list_elem_of_fmap;
    intros Hin; destruct_or?; destruct Hin as (? & [= _ ->] & _); auto.
Qed.

Lemma planOf_length s : length (planOf s) ≤ 5.
Proof. unfold planOf. repeat case_match; cbn; lia. Qed.

Lemma accepted_entry_wins plan m pk (c : KeypairType) s' :
  (c, s') ∈ plan → accepts c m s' pk = true → is_Some (winner plan m pk).
Proof.
  induction plan as [|[c0 s0] plan IH]; [by intros ?%elem_of_nil|].
  intros Hin Hacc. cbn. destruct (accepts c0 m s0 pk) eqn:E; [by eexists|].
  apply elem_of_cons in Hin as [[= -> ->]|Hin]; [congruence | by apply IH].
Qed.

Lemma winner_last plan m pk (c : KeypairType) :
  winner plan m pk = Some c →
  ∃ s', (c, s') ∈ plan ∧ accepts c m s' pk = true
        ∧ last (trials plan m pk) = Some (tried c m s' pk).
Proof.
  induction plan as [|[c0 s0] plan IH]; cbn; [done|].
  destruct (accepts c0 m s0 pk) eqn:E.
  - intros [= <-]. exists s0. split_and!; [left | done | done].
  - intros (s' & Hin & Hacc & Hlast)%IH. exists s'. split_and!; [by right | done |].
    destruct (trials plan m pk); [done|]. done.
Qed.

Lemma winner_none_trials plan m pk :
  winner plan m pk = None →
  trials plan m pk = (λ e, tried e.1 m e.2 pk) <$> plan.
Proof.
  induction plan as [|[c0 s0] plan IH]; cbn; [done|].
  destruct (accepts c0 m s0 pk); [done|]. intros Hw. by rewrite IH.
Qed.

Lemma twoPass_valid plan m pk :
  is_Some (winner plan m pk) →
  ∃ log r, twoPass plan m pk = (log, Ok r) ∧ Result.isValid r = true.
Proof.
  intros [c W]. unfold twoPass. rewrite W.
  rewrite (bool_decide_true (is_Some (Some c))) by eauto. cbn [orb].
  eexists _, _. split; [done|]. by rewrite verdict_isValid, W.
Qed.

(** A signature is reported valid as soon as one entry of its plan is
    accepted on the message as given. *)
Lemma signatureVerify_valid_when_offered
    message signature addressOrPublicKey pk (c : KeypairType) s' :
  length (u8aToU8a signature) ∈ validLengths →
  decodeAddress addressOrPublicKey = Ok pk →
  (c, s') ∈ planOf (u8aToU8a signature) →
  accepts c (u8aToU8a message) s' pk = true →
  ∃ log r,
    signatureVerify message signature addressOrPublicKey = (log, Ok r)
    ∧ Result.isValid r = true.
Proof.
  intros Hlen Hpk Hin Hacc. rewrite (signatureVerify_planOf _ _ _ pk) by done.
  apply twoPass_valid. by eapply accepted_entry_wins.
Qed.

Lemma verifiers_some_outcome (verifiers : list Verifier) r i :
  ∃ log r' (found : bool),
    verifiers_some verifiers r i = (log, (r', found))
    ∧ Result.isValid r' = Result.isValid r
    ∧ Result.isWrapped r' = Result.isWrapped r
    ∧ Result.publicKey r' = Result.publicKey r
    ∧ (found = true →
         ∃ v, v ∈ verifiers
              ∧ v.2 (Bytes (Input.message i)) (Input.signature i) (Input.publicKey i)
                = Ok true
              ∧ Result.crypto r' = named v.1)
    ∧ (found = false →
         r' = r ∧ length log = length verifiers
         ∧ ∀ v, v ∈ verifiers →
                v.2 (Bytes (Input.message i)) (Input.signature i) (Input.publicKey i)
                ≠ Ok true).
Proof.
  induction verifiers as [|[c check] verifiers IH]; cbn.
  - eexists _, _, _. split_and!; try done. intros _. split_and!; try done.
    by intros v ?%elem_of_nil.
  - destruct (check (Bytes (Input.message i)) (Input.signature i) (Input.publicKey i))
      as [[]|e] eqn:E.
    + eexists _, _, _. split_and!; try done.
      intros _. exists (c, check). split_and!; [left | done | done].
    + destruct IH as (log & r' & found & -> & ? & ? & ? & Ht & Hf).
      eexists _, _, _. split_and!; try done.
      * intros (v & ? & ? & ?)%Ht. exists v. split_and!; [by right | done..].
      * intros (-> & Hlen & Hno)%Hf. split_and!; [done | cbn; lia |].
        intros v [->|?]%elem_of_cons; [cbn; congruence | by apply Hno].
    + destruct IH as (log & r' & found & -> & ? & ? & ? & Ht & Hf).
      eexists _, _, _. split_and!; try done.
      * intros (v & ? & ? & ?)%Ht. exists v. split_and!; [by right | done..].
      * intros (-> & Hlen & Hno)%Hf. split_and!; [done | cbn; lia |].
        intros v [->|?]%elem_of_cons; [cbn; congruence | by apply Hno].
Qed.

Lemma verifyDetectWith_Ok r i (verifiers : list Verifier) :
  ∃ log r', verifyDetectWith r i verifiers = (log, Ok r').
Proof.
  unfold verifyDetectWith.
  destruct (verifiers_some verifiers r i) as [log [r' found]]. eauto.
Qed.

(** X1. [signatureVerify] throws exactly when the signature length is not
    a valid one or [decodeAddress] throws; what it throws is then the length
    error or the exception of [decodeAddress], and no native check has been
    called. A check that throws never makes [signatureVerify] throw. *)
Theorem signatureVerify_throws_iff_bad_length_or_address
    message signature addressOrPublicKey :
  (is_Ok (signatureVerify message signature addressOrPublicKey).2 = false ↔
     length (u8aToU8a signature) ∉ validLengths
     ∨ is_Ok (decodeAddress addressOrPublicKey) = false)
  ∧ (∀ log e,
       signatureVerify message signature addressOrPublicKey = (log, Throw e) →
       log = []
       ∧ (e = InvalidSignatureLength (length (u8aToU8a signature))
          ∨ decodeAddress addressOrPublicKey = Throw e)).
Proof.
  split; [|intros log e; apply signatureVerify_throws].
  destruct (decide (length (u8aToU8a signature) ∈ validLengths)) as [Hlen|Hlen].
  - destruct (decodeAddress addressOrPublicKey) as [pk|e] eqn:Hpk.
    + rewrite (signatureVerify_planOf _ _ _ pk) by done.
      unfold twoPass. destruct (bool_decide _ || _); cbn;
        (split; [done | by intros [?|?]]).
    + unfold signatureVerify.
      rewrite (proj2 (includes_true _ _) Hlen), Hpk. cbn. split; auto.
  - rewrite signatureVerify_bad_length by done. cbn. split; auto.
Qed.

(** X2. A result [signatureVerify] returns is consistent: it is valid
    exactly when its crypto is not "none"; its public key is the decoded
    address; its isWrapped flag is that of the message as it was given (not
    of the toggled message of a second pass); and at most ten native checks
    were made. *)
Theorem signatureVerify_result_consistent
    message signature addressOrPublicKey log r :
  signatureVerify message signature addressOrPublicKey = (log, Ok r) →
  decodeAddress addressOrPublicKey = Ok (Result.publicKey r)
  ∧ Result.isWrapped r = u8aIsWrapped (u8aToU8a message) true
  ∧ (Result.isValid r = true ↔ Result.crypto r ≠ none)
  ∧ length log ≤ 10.
Proof.
  intros Hres.
  destruct (decide (length (u8aToU8a signature) ∈ validLengths)) as [Hlen|Hlen];
    [|by rewrite signatureVerify_bad_length in Hres].
  destruct (decodeAddress addressOrPublicKey) as [pk|e] eqn:Hpk.
  2: { unfold signatureVerify in Hres.
       by rewrite (proj2 (includes_true _ _) Hlen), Hpk in Hres. }
  rewrite (signatureVerify_planOf _ _ _ pk) in Hres by done.
  pose proof (twoPass_length (planOf (u8aToU8a signature)) (u8aToU8a message) pk) as Hlog.
  pose proof (planOf_length (u8aToU8a signature)).
  rewrite Hres in Hlog. cbn in Hlog.
  assert (∃ m', r = verdict (planOf (u8aToU8a signature))
                      (u8aIsWrapped (u8aToU8a message) true) m' pk) as [m' ->].
  { unfold twoPass in Hres. destruct (bool_decide _ || _); injection Hres; eauto. }
  rewrite verdict_publicKey, verdict_isWrapped, verdict_isValid, verdict_crypto.
  split_and!; [done | done | | lia].
  destruct (winner _ _ _).
  - rewrite bool_decide_true by eauto. done.
  - rewrite bool_decide_false by (by intros [? ?]). done.
Qed.

(** X3. [signatureVerify] never reports a signature valid unless a native
    check returned true: when the result is valid, the family it records is
    one whose check accepted, with the decoded public key, the message as
    given or toggled, and the signature as given or without its first byte;
    that accepting call is the last one made. *)
Theorem signatureVerify_valid_only_if_check_accepted
    message signature addressOrPublicKey log r :
  signatureVerify message signature addressOrPublicKey = (log, Ok r) →
  Result.isValid r = true →
  ∃ c m' s',
    Result.crypto r = named c
    ∧ accepts c m' s' (Result.publicKey r) = true
    ∧ (m' = u8aToU8a message ∨ m' = toggled (u8aToU8a message))
    ∧ (s' = u8aToU8a signature ∨ s' = subarray1 (u8aToU8a signature))
    ∧ last log = Some (tried c m' s' (Result.publicKey r)).
Proof.
  intros Hres Hvalid.
  destruct (decide (length (u8aToU8a signature) ∈ validLengths)) as [Hlen|Hlen];
    [|by rewrite signatureVerify_bad_length in Hres].
  destruct (decodeAddress addressOrPublicKey) as [pk|e] eqn:Hpk.
  2: { unfold signatureVerify in Hres.
       by rewrite (proj2 (includes_true _ _) Hlen), Hpk in Hres. }
  rewrite (signatureVerify_planOf _ _ _ pk) in Hres by done.
  unfold twoPass in Hres.
  set (plan := planOf (u8aToU8a signature)) in *.
  set (m := u8aToU8a message) in *.
  destruct (winner plan m pk) as [c|] eqn:W1.
  - rewrite (bool_decide_true (is_Some (Some c))) in Hres by eauto.
    cbn in Hres. injection Hres as <- <-.
    destruct (winner_last plan m pk c W1) as (s' & Hin & Hacc & Hlast).
    exists c, m, s'. rewrite verdict_crypto, verdict_publicKey, W1.
    split_and!; [done | done | by left | by eapply planOf_signature | done].
  - rewrite (bool_decide_false (is_Some None)) in Hres by (by intros [? ?]).
    cbn [orb] in Hres.
    destruct (ethereumWrappedOnly m).
    { injection Hres as <- <-. by rewrite verdict_isValid, W1 in Hvalid. }
    injection Hres as <- <-.
    rewrite verdict_isValid in Hvalid. apply bool_decide_eq_true in Hvalid as [c W2].
    destruct (winner_last plan (toggled m) pk c W2) as (s' & Hin & Hacc & Hlast).
    exists c, (toggled m), s'. rewrite verdict_crypto, verdict_publicKey, W2.
    split_and!; [done | done | by right | by eapply planOf_signature |].
    by rewrite last_app, Hlast.
Qed.

(** X4. [verifyDetect], over any list of verifiers, never throws: a check
    that throws counts as one that returned false. The result is valid
    exactly when some verifier of the list returns true on the input, and its
    crypto is then the name of such a verifier; when none does, every
    verifier has been called and crypto is left as it was on entry (not reset
    to "none"). isWrapped and publicKey are never touched. *)
Theorem verifyDetect_swallows_exceptions r i (verifiers : list Verifier) :
  ∃ log r',
    verifyDetectWith r i verifiers = (log, Ok r')
    ∧ Result.isWrapped r' = Result.isWrapped r
    ∧ Result.publicKey r' = Result.publicKey r
    ∧ (Result.isValid r' = true ↔
         ∃ v, v ∈ verifiers
              ∧ v.2 (Bytes (Input.message i)) (Input.signature i) (Input.publicKey i)
                = Ok true)
    ∧ (Result.isValid r' = true →
         ∃ v, v ∈ verifiers
              ∧ v.2 (Bytes (Input.message i)) (Input.signature i) (Input.publicKey i)
                = Ok true
              ∧ Result.crypto r' = named v.1)
    ∧ (Result.isValid r' = false →
         Result.crypto r' = Result.crypto r ∧ length log = length verifiers).
Proof.
  unfold verifyDetectWith.
  destruct (verifiers_some_outcome verifiers r i)
    as (log & r' & found & -> & Hv & Hw & Hk & Ht & Hf).
  eexists _, _. split; [done|]. cbn.
  split; [done|]. split; [done|]. split; [|split].
  - split.
    + intros ->. destruct (Ht eq_refl) as (v & ? & ? & ?). eauto.
    + intros (v & Hin & Hacc). destruct found; [done|].
      destruct (Hf eq_refl) as (_ & _ & Hno). by destruct (Hno v Hin).
  - intros ->. by apply Ht.
  - intros ->. destruct (Hf eq_refl) as (-> & ? & _). done.
Qed.

(** X5. [verifyMultisig] throws exactly on the signatures that are not of
    the prefixed shape, and then at once, before any native check; on a
    signature of the prefixed shape it always returns a result. *)
Theorem verifyMultisig_throws_iff_not_prefixed r i :
  is_Ok (verifyMultisig r i).2 = isPrefixed (Input.signature i)
  ∧ (isPrefixed (Input.signature i) = false →
       verifyMultisig r i = ([], Throw (UnknownCryptoType (at0 (Input.signature i))))).
Proof.
  unfold verifyMultisig, isPrefixed. cbn zeta.
  set (s := Input.signature i).
  destruct (includes [Some 0; Some 1; Some 2]%N (at0 s)) eqn:E1;
    destruct (includes [65; 66] (length s)) eqn:E2;
    destruct (bool_decide (at0 s = Some 3%N)
              && bool_decide (length s = MLDSA_SIGNATURE_LENGTH + 1)) eqn:E3;
    cbn [andb orb negb]; try (split; [reflexivity | done]).
  all: split; [|done].
  all: repeat match goal with
       | |- context [verifyDetectWith ?r ?i ?vs] =>
           let log := fresh "log" in let r' := fresh "r'" in let E := fresh "E" in
           destruct (verifyDetectWith_Ok r i vs) as (log & r' & E); rewrite E
       | |- context [if ?b then _ else _] => destruct b
       | _ => progress (unfold mbind, Traced_bind, mret, Traced_ret; cbn)
       end; done.
Qed.

End VerifyMore.

(** ** More on the HDKD dispatcher and the pair *)

Section PairMore.
Context `{V : Verify.Primitives} `{H : Hdkd.Primitives} `{P : Pair.Primitives}.
Import Hdkd Pair.

Implicit Types (s : State) (pair : Keypair) (path : list DeriveJunction).

Lemma foldPath_app (keyHdkd : StepFn) pair path1 path2 :
  foldPath keyHdkd pair (path1 ++ path2) =
    (mid ← foldPath keyHdkd pair path1; foldPath keyHdkd mid path2).
Proof.
  revert pair. induction path1 as [|junction path1 IH]; intros pair; [done|].
  cbn. destruct (keyHdkd pair junction) as [next|e]; [|done]. apply IH.
Qed.

Lemma foldPath_throws (keyHdkd : StepFn) pair path e :
  foldPath keyHdkd pair path = Throw e →
  ∃ done junction rest mid,
    path = done ++ junction :: rest
    ∧ foldPath keyHdkd pair done = Ok mid
    ∧ keyHdkd mid junction = Throw e.
Proof.
  revert pair. induction path as [|junction path IH]; intros pair; [done|].
  cbn. destruct (keyHdkd pair junction) as [next|e'] eqn:E.
  - intros (done & j & rest & mid & -> & Hdone & Hstep)%IH.
    exists (junction :: done), j, rest, mid. split_and!; [done | | done].
    cbn. by rewrite E.
  - intros [= ->]. exists [], junction, path, pair. done.
Qed.

(** X6. Deriving along a concatenated path is deriving along the first
    part and then, from the keypair reached, along the second; when the
    first part throws, the second is never started. *)
Theorem keyFromPath_app pair path1 path2 (type : KeypairType) :
  keyFromPath pair (path1 ++ path2) type =
    (mid ← keyFromPath pair path1 type; keyFromPath mid path2 type).
Proof.
  unfold keyFromPath. destruct (generators type) as [keyHdkd|]; [|done].
  apply foldPath_app.
Qed.

(** X7. When [keyFromPath] throws, the exception is the one a step function
    threw at the first junction that failed: the junctions before it were
    applied in order, the ones after it were not; the dispatcher itself
    never throws for one of the five types. *)
Theorem keyFromPath_throws_at_first_failing_step pair path (type : KeypairType) e :
  keyFromPath pair path type = Throw e →
  ∃ keyHdkd done junction rest mid,
    generators type = Some keyHdkd
    ∧ path = done ++ junction :: rest
    ∧ keyFromPath pair done type = Ok mid
    ∧ keyHdkd mid junction = Throw e.
Proof.
  unfold keyFromPath. destruct (generators_total type) as [keyHdkd ->].
  intros (done & junction & rest & mid & ? & ? & ?)%foldPath_throws.
  by exists keyHdkd, done, junction, rest, mid.
Qed.

(** *** What the members leave alone *)

Lemma decodePkcs8_outcome s passphrase userEncoded :
  (∃ e, decodePkcs8 passphrase userEncoded s = (s, Throw e))
  ∨ (∃ pk sk, decodePkcs8 passphrase userEncoded s = (with_keys pk (Some sk) s, Ok tt)).
Proof.
  unfold decodePkcs8, mbind, Method_bind, get, lift, put.
  destruct (decodePair _ _ _) as [decoded|e]; [|eauto].
  repeat case_match; simplify_eq; eauto.
Qed.

Lemma recode_unfold s passphrase :
  recode passphrase s =
    match (if isLocked (secretKey s) && bool_decide (is_Some (encoded s))
           then decodePkcs8 passphrase (encoded s) s
           else (s, Ok tt)) with
    | (s1, Ok _) =>
        match encodePair (mkInfo (publicKey s1) (secretKey s1)) passphrase (type s1) with
        | Ok container => (with_encoded (Some container) None s1, Ok container)
        | Throw e => (s1, Throw e)
        end
    | (s1, Throw e) => (s1, Throw e)
    end.
Proof.
  unfold recode, mbind, Method_bind, get, lift, put, mret, Method_ret.
  destruct (isLocked (secretKey s) && bool_decide (is_Some (encoded s))).
  - destruct (decodePkcs8 passphrase (encoded s) s) as [s1 [[]|e]]; [|done].
    by destruct (encodePair _ _ _).
  - by destruct (encodePair _ _ _).
Qed.

Lemma recode_outcome s passphrase :
  ∃ s1, (s1 = s ∨ ∃ pk sk, s1 = with_keys pk (Some sk) s)
        ∧ ((∃ e, recode passphrase s = (s1, Throw e))
           ∨ (∃ container,
                recode passphrase s = (with_encoded (Some container) None s1, Ok container))).
Proof.
  rewrite recode_unfold.
  destruct (isLocked (secretKey s) && bool_decide (is_Some (encoded s))).
  - destruct (decodePkcs8_outcome s passphrase (encoded s))
      as [[e ->]|(pk & sk & ->)].
    + exists s. eauto.
    + exists (with_keys pk (Some sk) s). split; [eauto|].
      destruct (encodePair _ _ _) as [c|e]; [right; by exists c | left; by exists e].
  - exists s. split; [auto|].
    destruct (encodePair _ _ _) as [c|e]; [right; by exists c | left; by exists e].
Qed.

Lemma toJson_state s passphrase :
  (toJson passphrase s).1 = s ∨ (toJson passphrase s).1 = (recode passphrase s).1.
Proof.
  unfold toJson, mbind, Method_bind, get, lift, mret, Method_ret.
  destruct (toJsonAddress s); [|by left].
  destruct (recode passphrase s) as [s1 [c|e]]; by right.
Qed.

Lemma recode_frame s passphrase :
  type (recode passphrase s).1 = type s ∧ meta (recode passphrase s).1 = meta s.
Proof.
  destruct (recode_outcome s passphrase) as (s1 & Hs1 & [[e ->]|[c ->]]);
    destruct Hs1 as [->|(pk & sk & ->)]; done.
Qed.

Lemma after_type (c : Call) s : type (after c s) = type s.
Proof.
  destruct c; try done; cbn.
  - by destruct (decodePkcs8_outcome s passphrase userEncoded) as [[e ->]|(pk & sk & ->)].
  - apply recode_frame.
  - destruct (toJson_state s passphrase) as [-> | ->]; [done | apply recode_frame].
  - unfold unlock.
    by destruct (decodePkcs8_outcome s passphrase None) as [[e ->]|(pk & sk & ->)].
Qed.

Lemma after_meta (c : Call) s :
  (∀ additional, c ≠ SetMeta additional) → meta (after c s) = meta s.
Proof.
  intros Hc. destruct c; try done; cbn.
  - by destruct (decodePkcs8_outcome s passphrase userEncoded) as [[e ->]|(pk & sk & ->)].
  - apply recode_frame.
  - by destruct (Hc additional).
  - destruct (toJson_state s passphrase) as [-> | ->]; [done | apply recode_frame].
  - unfold unlock.
    by destruct (decodePkcs8_outcome s passphrase None) as [[e ->]|(pk & sk & ->)].
Qed.

Lemma after_no_decode (c : Call) s :
  decodes c = false →
  publicKey (after c s) = publicKey s
  ∧ encoded (after c s) = encoded s
  ∧ encTypes (after c s) = encTypes s.
Proof. by destruct c. Qed.

Lemma afterAll_cons (c : Call) (calls : list Call) s :
  afterAll (c :: calls) s = afterAll calls (after c s).
Proof. reflexivity. Qed.

(** X8. The type of a pair never changes, whatever members are called and
    whether they return or throw; the metadata changes only through
    [setMeta]; the public key and the cached container change only through
    the members that decode or encode a container ([decodePkcs8], [unlock],
    [encodePkcs8], [toJson]). *)
Theorem calls_keep_type_and_frame (calls : list Call) s :
  type (afterAll calls s) = type s
  ∧ (Forall (λ c, ∀ additional, c ≠ SetMeta additional) calls →
       meta (afterAll calls s) = meta s)
  ∧ (Forall (λ c, decodes c = false) calls →
       publicKey (afterAll calls s) = publicKey s
       ∧ encoded (afterAll calls s) = encoded s
       ∧ encTypes (afterAll calls s) = encTypes s).
Proof.
  split_and!.
  - revert s. induction calls as [|c calls IH]; intros s; [done|].
    by rewrite afterAll_cons, IH, after_type.
  - intros Hcalls. revert s.
    induction Hcalls as [|c calls Hc _ IH]; intros s; [done|].
    by rewrite afterAll_cons, IH, after_meta.
  - intros Hcalls. revert s.
    induction Hcalls as [|c calls Hc _ IH]; intros s; [done|].
    rewrite afterAll_cons.
    destruct (after_no_decode c s Hc) as (<- & <- & <-). apply IH.
Qed.

(** X9. [decodePkcs8] (and [unlock], which is [decodePkcs8] on the cached
    container) is all or nothing: when it throws the pair is exactly as
    before; when it returns, only the public and the secret key were
    assigned, a secret key is present, and the type, the metadata, the cached
    container and its encodings are as before. *)
Theorem decodePkcs8_all_or_nothing s passphrase userEncoded :
  match decodePkcs8 passphrase userEncoded s with
  | (s', Throw _) => s' = s
  | (s', Ok _) =>
      is_Some (secretKey s')
      ∧ type s' = type s ∧ meta s' = meta s
      ∧ encoded s' = encoded s ∧ encTypes s' = encTypes s
  end
  ∧ unlock passphrase s = decodePkcs8 passphrase None s.
Proof.
  split; [|done].
  destruct (decodePkcs8_outcome s passphrase userEncoded) as [[e ->]|(pk & sk & ->)];
    [done|]. cbn. split_and!; eauto.
Qed.

(** X10. On a pair of the lattice scheme, [decodePkcs8] takes the decoded
    keys as they are only for a 4896-byte secret key with a 2592-byte public
    key, expands a 32-byte secret key as a seed, and rejects every other
    size (the 64-byte combined key of the classical types included) with the
    key-sizes error, leaving the pair unchanged. *)
Theorem decodePkcs8_mldsa_key_sizes s passphrase userEncoded decoded :
  type s = mldsa →
  decodePair passphrase
    (match userEncoded with Some c => Some c | None => encoded s end) (encTypes s)
    = Ok decoded →
  (length (Hdkd.secretKey decoded) = 4896 → length (Hdkd.publicKey decoded) = 2592 →
     decodePkcs8 passphrase userEncoded s =
       (with_keys (Hdkd.publicKey decoded) (Some (Hdkd.secretKey decoded)) s, Ok tt))
  ∧ (length (Hdkd.secretKey decoded) = 32 →
       decodePkcs8 passphrase userEncoded s =
         match mldsaPairFromSeed (Hdkd.secretKey decoded) with
         | Ok kp => (with_keys (Hdkd.publicKey kp) (Some (Hdkd.secretKey kp)) s, Ok tt)
         | Throw e => (s, Throw e)
         end)
  ∧ (length (Hdkd.secretKey decoded) ≠ 32 →
     length (Hdkd.secretKey decoded) ≠ 4896 ∨ length (Hdkd.publicKey decoded) ≠ 2592 →
       decodePkcs8 passphrase userEncoded s =
         (s, Throw (InvalidMldsaKeySizes (length (Hdkd.secretKey decoded))
                                         (length (Hdkd.publicKey decoded))))).
Proof.
  intros Ht Hd. unfold decodePkcs8, mbind, Method_bind, get, lift, put.
  rewrite Hd, Ht. rewrite (bool_decide_true (mldsa = mldsa)) by done.
  split_and!.
  - intros Hsk Hpk. by rewrite !bool_decide_true by done.
  - intros Hsk. rewrite (bool_decide_false (length _ = 4896)) by lia.
    rewrite (bool_decide_true (length _ = 32)) by done. cbn.
    by destruct (mldsaPairFromSeed _).
  - intros Hsk [Hbad|Hbad].
    + rewrite (bool_decide_false (length _ = 4896)) by done.
      by rewrite (bool_decide_false (length _ = 32)) by done.
    + rewrite (bool_decide_false (length _ = 2592)) by done.
      rewrite andb_false_r.
      by rewrite (bool_decide_false (length _ = 32)) by done.
Qed.

(** X11. On a pair that is unlocked, or that holds no container,
    [encodePkcs8] decodes nothing: it encodes the keys the pair holds (for a
    locked pair without a container, the emptied or absent secret key),
    stores the new container with the default encodings, and leaves the keys,
    the type and the metadata alone; when the encoder throws, the pair is
    unchanged. *)
Theorem encodePkcs8_without_decoding s passphrase :
  isLocked (secretKey s) = false ∨ encoded s = None →
  encodePkcs8 passphrase s =
    match encodePair (mkInfo (publicKey s) (secretKey s)) passphrase (type s) with
    | Ok container => (with_encoded (Some container) None s, Ok container)
    | Throw e => (s, Throw e)
    end.
Proof.
  intros Hcase. unfold encodePkcs8. rewrite recode_unfold.
  assert (isLocked (secretKey s) && bool_decide (is_Some (encoded s)) = false) as ->; [|done].
  destruct Hcase as [-> | ->]; [done|].
  rewrite (bool_decide_false (is_Some None)) by (by intros [? ?]).
  apply andb_false_r.
Qed.

(** X12. Encode, lock, unlock: for a type other than the lattice scheme,
    a 64-byte secret key, and a persistence codec that decodes the container
    it made (same passphrase, default encodings) back to the same keys,
    [encodePkcs8] then [lock] leaves the pair locked, and [unlock] with the
    passphrase then restores exactly the keys it had; the pair ends as it
    began but for the cached container. *)
Theorem encode_lock_unlock_restores_keys s passphrase sk container :
  type s ≠ mldsa →
  secretKey s = Some sk →
  length sk = 64 →
  u8aEmpty sk = false →
  u8aEmpty [] = true →
  encodePair (mkInfo (publicKey s) (Some sk)) passphrase (type s) = Ok container →
  decodePair passphrase (Some container) None = Ok (mkKeypair (publicKey s) sk) →
  isLocked (secretKey (afterAll [EncodePkcs8 passphrase; Lock] s)) = true
  ∧ afterAll [EncodePkcs8 passphrase; Lock; Unlock passphrase] s
    = with_encoded (Some container) None s.
Proof.
  intros Ht Hsk Hlen Hfull Hempty Henc Hdec.
  assert (encodePkcs8 passphrase s = (with_encoded (Some container) None s, Ok container))
    as Hstep1.
  { unfold encodePkcs8. rewrite recode_unfold.
    rewrite Hsk. cbn [isLocked]. rewrite Hfull. cbn [andb]. cbn.
    by rewrite Hsk, Henc. }
  unfold afterAll. cbn [foldl after]. rewrite Hstep1. cbn [fst].
  split; [done|].
  unfold unlock.
  rewrite (decodePkcs8_expanded _ passphrase None (mkKeypair (publicKey s) sk));
    [| done | done | done].
  destruct s; cbn in *. by subst.
Qed.

(** X13. [setMeta] merges: a key of the additional object takes its value
    from it, every other key keeps the value it had, so no key is ever
    removed; nothing but the metadata changes; and two [setMeta] in a row
    are one [setMeta] with the second object merged over the first. *)
Theorem setMeta_merges s (additional : Meta) :
  (∀ k, meta (setMeta additional s).1 !! k =
          match additional !! k with
          | Some v => Some v
          | None => meta s !! k
          end)
  ∧ (∀ k, is_Some (meta s !! k) → is_Some (meta (setMeta additional s).1 !! k))
  ∧ with_meta (meta s) (setMeta additional s).1 = s
  ∧ (∀ more : Meta,
       (setMeta more (setMeta additional s).1).1 = (setMeta (more ∪ additional) s).1).
Proof.
  assert (∀ k, (additional ∪ meta s) !! k =
                 match additional !! k with
                 | Some v => Some v
                 | None => meta s !! k
                 end) as Hlookup.
  { intros k. rewrite lookup_union.
    destruct (additional !! k), (meta s !! k); done. }
  split_and!.
  - exact Hlookup.
  - intros k Hk.
    change (meta (setMeta additional s).1) with (additional ∪ meta s).
    rewrite Hlookup. by destruct (additional !! k).
  - by destruct s.
  - intros more. unfold setMeta, mbind, Method_bind, get, put, with_meta.
    cbn [fst meta type publicKey secretKey encoded encTypes].
    by rewrite (assoc_L (∪)).
Qed.

(** X14. Deriving in two steps is deriving once along the concatenated
    path: when [derive] on the first derivation string returned an unlocked
    pair, [derive] on the second string from that pair returns what [derive]
    from the original pair returns on a string whose path is the two paths
    one after the other. *)
Theorem derive_in_two_steps s suri1 suri2 suri12 path1 path2 meta1 meta2 s1 :
  keyExtractPath suri1 = Ok path1 →
  keyExtractPath suri2 = Ok path2 →
  keyExtractPath suri12 = Ok (path1 ++ path2) →
  derive suri1 meta1 s = Ok s1 →
  isLocked (secretKey s1) = false →
  derive suri12 meta2 s = derive suri2 meta2 s1.
Proof.
  intros Hp1 Hp2 Hp12 Hd1 Hunlocked1. unfold derive in *.
  destruct (bool_decide (type s = ethereum)) eqn:Ht; [done|].
  destruct (isLocked (secretKey s)) eqn:Hl; [done|].
  rewrite Hp1 in Hd1. rewrite Hp12. cbn in *.
  unfold keyFromPath in *.
  destruct (generators_total (type s)) as [keyHdkd Hg]. rewrite Hg in *.
  rewrite foldPath_app.
  destruct (foldPath keyHdkd _ path1) as [[pk1 sk1]|e]; [|done].
  cbn in Hd1. injection Hd1 as <-. cbn in *.
  rewrite Ht, Hunlocked1, Hp2, Hg. done.
Qed.

(** *** Signing and verifying *)

Ltac in_cons := repeat first [apply list_elem_of_here | apply list_elem_of_further].

Lemma typed_signature_offered (type : KeypairType) (raw : U8a) (typed : bool) :
  type ≠ mldsa →
  65 < Verify.MLDSA_SIGNATURE_LENGTH →
  length raw = match type with ecdsa | ethereum => 65 | _ => 64 end →
  let signature := (if typed then TYPE_PREFIX type else SIG_TYPE_NONE) ++ raw in
  length signature ∈ Verify.validLengths
  ∧ (type, raw) ∈ Verify.planOf signature.
Proof.
  intros Ht HL Hlen signature.
  destruct (planOf_prefixed_cases signature) as (_ & P66 & P65 & Pbare).
  unfold Verify.validLengths.
  destruct typed; subst signature.
  - (* the discriminator is attached *)
    destruct type; try done; cbn [TYPE_PREFIX app] in *.
    + split; [cbn [length]; rewrite Hlen; in_cons|].
      rewrite P66; [cbn; in_cons | cbn; in_cons | cbn; lia].
    + split; [cbn [length]; rewrite Hlen; in_cons|].
      rewrite P65; [cbn; in_cons | cbn; in_cons | cbn; lia].
    + split; [cbn [length]; rewrite Hlen; in_cons|].
      rewrite P66; [cbn; in_cons | cbn; in_cons | cbn; lia].
    + split; [cbn [length]; rewrite Hlen; in_cons|].
      rewrite P65; [cbn; in_cons | cbn; in_cons | cbn; lia].
  - (* the bare signature *)
    cbn [SIG_TYPE_NONE app] in *.
    split; [destruct type; rewrite Hlen; in_cons|].
    destruct (Verify.isPrefixed raw) eqn:Hp.
    + apply isPrefixed_cases in Hp as [[_ Hl]|[[_ Hl]|[Hb Hl]]];
        [destruct type; lia.. |].
      rewrite P65 by done.
      destruct type; try done; try lia; cbn; in_cons.
    + rewrite Pbare by done.
      destruct type; try done; cbn; in_cons.
Qed.

(** X15. Sign, then verify, for every type but the lattice scheme: when the
    pair is unlocked, the signing primitive returns a signature of the
    family's length (64 bytes, 65 for the secp256k1 families), and the
    family's own check accepts it under the key the address of the signer
    decodes to, then [verify] returns true on what [sign] returned, with the
    discriminator byte attached or not, and whatever the first byte of a bare
    signature is. (The lattice length is above 65, so that its prefixed
    window does not meet the classical lengths.) *)
Theorem sign_then_verify s message signerPublic raw addr key :
  type s ≠ mldsa →
  isLocked (secretKey s) = false →
  65 < Verify.MLDSA_SIGNATURE_LENGTH →
  TYPE_SIGNATURE (type s) (Verify.u8aToU8a message) (mkInfo (publicKey s) (secretKey s))
    = Ok raw →
  length raw = match type s with ecdsa | ethereum => 65 | _ => 64 end →
  TYPE_ADDRESS (type s) (Verify.u8aToU8a signerPublic) = Ok addr →
  Verify.decodeAddress (Bytes addr) = Ok key →
  Verify.accepts (type s) (Verify.u8aToU8a message) raw key = true →
  ∀ options,
    ∃ signature,
      sign message options s = Ok signature
      ∧ signature = (if withType options then TYPE_PREFIX (type s) else []) ++ raw
      ∧ verify message (Bytes signature) signerPublic s = Ok true.
Proof.
  intros Ht Hunlocked HL Hsign Hlen Haddr Hkey Hacc options.
  eexists. split; [|split; [reflexivity|]].
  - unfold sign. by rewrite Hunlocked, Hsign.
  - unfold verify. rewrite (bool_decide_false (type s = mldsa)) by done.
    rewrite Haddr. cbn.
    destruct (typed_signature_offered (type s) raw (withType options) Ht HL Hlen)
      as (Hvalid & Hoffered).
    destruct (signatureVerify_valid_when_offered message
                (Bytes ((if withType options then TYPE_PREFIX (type s) else SIG_TYPE_NONE)
                          ++ raw))
                (Bytes addr) key (type s) raw Hvalid Hkey Hoffered Hacc)
      as (log & r & Hres & Hr).
    unfold SIG_TYPE_NONE in Hres. rewrite Hres. cbn. by rewrite Hr.
Qed.

(** X16. vrfSign, then vrfVerify, for the types without a native VRF other
    than the lattice scheme (classic-Ed25519 and the two secp256k1 families):
    under the conditions of sign-then-verify and a 32-byte hash, [vrfSign]
    returns the 32-byte hash of (context, extra, signature) followed by the
    signature, and [vrfVerify] with the same context and extra returns true
    on it. *)
Theorem vrfSign_then_vrfVerify s message signerPublic context extra proof addr key :
  type s ≠ sr25519 →
  type s ≠ mldsa →
  isLocked (secretKey s) = false →
  65 < Verify.MLDSA_SIGNATURE_LENGTH →
  (∀ u8a, length (blake2AsU8a u8a) = 32) →
  TYPE_SIGNATURE (type s) (Verify.u8aToU8a message) (mkInfo (publicKey s) (secretKey s))
    = Ok proof →
  length proof = match type s with ecdsa | ethereum => 65 | _ => 64 end →
  TYPE_ADDRESS (type s) (Verify.u8aToU8a signerPublic) = Ok addr →
  Verify.decodeAddress (Bytes addr) = Ok key →
  Verify.accepts (type s) (Verify.u8aToU8a message) proof key = true →
  vrfSign message context extra s = Ok (vrfHash proof context extra ++ proof)
  ∧ length (vrfHash proof context extra ++ proof) = 32 + length proof
  ∧ vrfVerify message (vrfHash proof context extra ++ proof) signerPublic context extra s
    = Ok true.
Proof.
  intros Hsr Ht Hunlocked HL Hhash Hsign Hlen Haddr Hkey Hacc.
  assert (length (vrfHash proof context extra) = 32) as H32 by apply Hhash.
  split_and!.
  - unfold vrfSign. rewrite Hunlocked.
    rewrite (bool_decide_false (type s = sr25519)) by done. by rewrite Hsign.
  - rewrite length_app. lia.
  - unfold vrfVerify. rewrite (bool_decide_false (type s = sr25519)) by done.
    rewrite Haddr. cbn.
    rewrite drop_app_length' by done. rewrite take_app_length' by done.
    destruct (typed_signature_offered (type s) proof true Ht HL Hlen)
      as (Hvalid & Hoffered).
    destruct (signatureVerify_valid_when_offered message
                (Bytes (TYPE_PREFIX (type s) ++ proof))
                (Bytes addr) key (type s) proof Hvalid Hkey Hoffered Hacc)
      as (log & r & Hres & Hr).
    rewrite Hres. cbn. rewrite Hr. by rewrite bool_decide_true by done.
Qed.

(** X17. For every type without a native VRF, [vrfVerify] never returns
    true on a result whose first 32 bytes are not the hash of (context,
    extra, the rest): it returns false, or throws what the signature check
    throws, however valid the embedded signature is. *)
Theorem vrfVerify_rejects_wrong_hash s message vrfResult signerPublic context extra :
  type s ≠ sr25519 →
  take 32 vrfResult ≠ vrfHash (drop 32 vrfResult) context extra →
  vrfVerify message vrfResult signerPublic context extra s = Ok false
  ∨ ∃ e, vrfVerify message vrfResult signerPublic context extra s = Throw e.
Proof.
  intros Hsr Hhash. unfold vrfVerify.
  rewrite (bool_decide_false (type s = sr25519)) by done.
  rewrite (bool_decide_false (take 32 vrfResult = _)) by done.
  destruct (TYPE_ADDRESS _ _) as [raw|e]; cbn; [|eauto].
  destruct (Verify.signatureVerify _ _ _) as [log [r|e]]; cbn; [|eauto].
  left. by rewrite andb_false_r.
Qed.

(** X18. On a pair of the lattice scheme, [vrfVerify] checks the embedded
    signature against the key the 32-byte hash of the signer's public key
    decodes to, not against that public key: for a result of 32 bytes plus
    the lattice signature length it returns true exactly when the first 32
    bytes are the hash of (context, extra, the rest) and the lattice check
    accepts the rest under that key, on the message as given or, unless the
    message is Ethereum-wrapped only, on the toggled message. No other
    family is tried. *)
Theorem vrfVerify_mldsa_checks_under_hashed_key
    s message vrfResult signerPublic context extra key :
  type s = mldsa →
  length vrfResult = 32 + Verify.MLDSA_SIGNATURE_LENGTH →
  Verify.decodeAddress (Bytes (blake2AsU8a (Verify.u8aToU8a signerPublic))) = Ok key →
  let m := Verify.u8aToU8a message in
  (vrfVerify message vrfResult signerPublic context extra s = Ok true ↔
     take 32 vrfResult = vrfHash (drop 32 vrfResult) context extra
     ∧ (Verify.accepts mldsa m (drop 32 vrfResult) key = true
        ∨ (Verify.ethereumWrappedOnly m = false
           ∧ Verify.accepts mldsa (Verify.toggled m) (drop 32 vrfResult) key = true)))
  ∧ is_Ok (vrfVerify message vrfResult signerPublic context extra s) = true.
Proof.
  intros Ht Hlen Hkey m. unfold vrfVerify.
  rewrite (bool_decide_false (type s = sr25519)) by (rewrite Ht; done).
  rewrite Ht. cbn [TYPE_ADDRESS TYPE_PREFIX]. cbn [mbind Res_bind].
  set (proof := drop 32 vrfResult).
  assert (length (x03 :: proof) = Verify.MLDSA_SIGNATURE_LENGTH + 1) as Hsig.
  { cbn. unfold proof. rewrite length_drop. lia. }
  destruct (planOf_prefixed_cases (x03 :: proof)) as (P3 & _).
  rewrite (signatureVerify_planOf _ _ _ key);
    [| cbn [Verify.u8aToU8a app]; rewrite Hsig; unfold Verify.validLengths;
       rewrite !elem_of_cons; auto 7
     | done].
  cbn [Verify.u8aToU8a app]. rewrite P3 by done.
  change (Verify.stripped (x03 :: proof) [mldsa]) with [(mldsa, proof)].
  fold m. unfold Verify.twoPass. cbn [Verify.winner Verify.trials].
  destruct (Verify.accepts mldsa m proof key) eqn:A1.
  - rewrite (bool_decide_true (is_Some (Some mldsa))) by eauto. cbn.
    unfold Verify.verdict. cbn. rewrite A1. cbn. split; [|done].
    split.
    + intros [= Hb]. apply bool_decide_eq_true in Hb. auto.
    + intros [Hh _]. by rewrite bool_decide_true by done.
  - rewrite (bool_decide_false (is_Some None)) by (by intros [? ?]). cbn [orb].
    destruct (Verify.ethereumWrappedOnly m) eqn:Hw; cbn.
    + unfold Verify.verdict. cbn. rewrite A1. cbn. split; [|done].
      split; [done|]. intros [_ [?|[? _]]]; done.
    + unfold Verify.verdict. cbn.
      destruct (Verify.accepts mldsa (Verify.toggled m) proof key) eqn:A2; cbn.
      * split; [|done]. split.
        -- intros [= Hb]. apply bool_decide_eq_true in Hb. auto.
        -- intros [Hh _]. by rewrite bool_decide_true by done.
      * split; [|done]. split; [done|]. intros [_ [?|[_ ?]]]; done.
Qed.

End PairMore.

(** ** The further theorems on sample inputs *)

Section MoreEvaluation.
Import Verify Sample.

Lemma signatureVerify_result_consistent_witness :
  decodeAddress (Primitives := sr25519Accepting) (Bytes key32) = Ok key32
  ∧ isWrapped (utf8 "test") true = false
  ∧ (true = true ↔ named sr25519 ≠ none)
  ∧ 3 ≤ 10.
Proof.
  apply (signatureVerify_result_consistent (P := sr25519Accepting)
           (Str "test") (Bytes (sig x09 64)) (Bytes key32)
           [tried ed25519 (utf8 "test") (sig x09 64) key32;
            tried mldsa (utf8 "test") (sig x09 64) key32;
            tried sr25519 (utf8 "test") (sig x09 64) key32]
           (Result.mk (named sr25519) true false key32)).
  vm_compute. reflexivity.
Defined.

Lemma signatureVerify_valid_only_if_check_accepted_witness :
  ∃ c m' s',
    named sr25519 = named c
    ∧ accepts (P := sr25519Accepting) c m' s' key32 = true
    ∧ (m' = utf8 "test" ∨ m' = toggled (P := sr25519Accepting) (utf8 "test"))
    ∧ (s' = x00 :: sig x09 64 ∨ s' = subarray1 (x00 :: sig x09 64))
    ∧ last [tried ed25519 (utf8 "test") (sig x09 64) key32;
            tried mldsa (utf8 "test") (sig x09 64) key32;
            tried sr25519 (utf8 "test") (sig x09 64) key32]
      = Some (tried c m' s' key32).
Proof.
  apply (signatureVerify_valid_only_if_check_accepted (P := sr25519Accepting)
           (Str "test") (Bytes (x00 :: sig x09 64)) (Bytes key32)
           [tried ed25519 (utf8 "test") (sig x09 64) key32;
            tried mldsa (utf8 "test") (sig x09 64) key32;
            tried sr25519 (utf8 "test") (sig x09 64) key32]
           (Result.mk (named sr25519) true false key32));
    vm_compute; reflexivity.
Defined.

#[local] Existing Instances collaborators.

Lemma keyFromPath_throws_at_first_failing_step_witness :
  ∃ keyHdkd done junction rest mid,
    Hdkd.generators (H := hardSteps) sr25519 = Some keyHdkd
    ∧ [Hdkd.mkJunction (utf8 "a") true; Hdkd.mkJunction (utf8 "b") false;
       Hdkd.mkJunction (utf8 "c") true] = done ++ junction :: rest
    ∧ Hdkd.keyFromPath (H := hardSteps) (Hdkd.mkKeypair key32 secret64) done sr25519 = Ok mid
    ∧ keyHdkd mid junction = Throw (Foreign "soft junction").
Proof.
  apply (keyFromPath_throws_at_first_failing_step (H := hardSteps)
           (Hdkd.mkKeypair key32 secret64)
           [Hdkd.mkJunction (utf8 "a") true; Hdkd.mkJunction (utf8 "b") false;
            Hdkd.mkJunction (utf8 "c") true]
           sr25519 (Foreign "soft junction")).
  reflexivity.
Defined.

Lemma decodePkcs8_mldsa_key_sizes_witness :
  Pair.decodePkcs8 None None (storedPair mldsa)
  = (storedPair mldsa, Throw (InvalidMldsaKeySizes 64 32)).
Proof.
  destruct (decodePkcs8_mldsa_key_sizes (P := collaborators)
              (storedPair mldsa) None None (Hdkd.mkKeypair key32 secret64)
              eq_refl eq_refl) as (_ & _ & Hbad).
  apply Hbad; [discriminate | left; discriminate].
Defined.

Lemma encodePkcs8_without_decoding_witness :
  Pair.encodePkcs8 (Some "secret"%string) (Pair.lock (unlockedPair ed25519)).1
  = (Pair.mkState ed25519 key32 (Some []) ∅ (Some key32) None, Ok key32).
Proof.
  apply (encodePkcs8_without_decoding (P := collaborators)
           (Pair.lock (unlockedPair ed25519)).1 (Some "secret"%string)).
  right. reflexivity.
Defined.

Lemma encode_lock_unlock_restores_keys_witness :
  Pair.isLocked (Pair.secretKey
      (Pair.afterAll [Pair.EncodePkcs8 None; Pair.Lock] (unlockedPair sr25519))) = true
  ∧ Pair.afterAll [Pair.EncodePkcs8 None; Pair.Lock; Pair.Unlock None] (unlockedPair sr25519)
    = Pair.with_encoded (Some (secret64 ++ key32)) None (unlockedPair sr25519).
Proof.
  apply (encode_lock_unlock_restores_keys (P := collaborators)
           (unlockedPair sr25519) None secret64 (secret64 ++ key32));
    [discriminate | reflexivity..].
Defined.

Lemma derive_in_two_steps_witness :
  Pair.derive (H := steps) (P := perCharacter) "ab" None (unlockedPair ed25519)
  = Pair.derive (H := steps) (P := perCharacter) "b" None
      (Pair.mkState ed25519 (key32 ++ utf8 "a") (Some (secret64 ++ utf8 "a")) ∅ None None).
Proof.
  apply (derive_in_two_steps (H := steps) (P := perCharacter)
           (unlockedPair ed25519) "a" "b" "ab"
           [junctionOf "a"] [junctionOf "b"] None None); reflexivity.
Defined.

Lemma sign_then_verify_witness :
  (∃ signature,
     Pair.sign (V := echoing) (Str "t") (Pair.mkOptions true) (unlockedPair ecdsa)
       = Ok signature
     ∧ signature = [x02] ++ (secret64 ++ utf8 "t")
     ∧ Pair.verify (V := echoing) (Str "t") (Bytes signature) (Bytes key32)
         (unlockedPair ecdsa) = Ok true)
  ∧ (∃ signature,
       Pair.sign (V := echoing) (Str "") (Pair.mkOptions false) (unlockedPair sr25519)
         = Ok signature
       ∧ signature = [] ++ (secret64 ++ [])
       ∧ Pair.verify (V := echoing) (Str "") (Bytes signature) (Bytes key32)
           (unlockedPair sr25519) = Ok true).
Proof.
  split.
  - apply (sign_then_verify (V := echoing) (P := collaborators)
             (unlockedPair ecdsa) (Str "t") (Bytes key32) (secret64 ++ utf8 "t")
             key32 key32);
      [discriminate | reflexivity | cbn; lia | reflexivity..].
  - apply (sign_then_verify (V := echoing) (P := collaborators)
             (unlockedPair sr25519) (Str "") (Bytes key32) (secret64 ++ [])
             key32 key32);
      [discriminate | reflexivity | cbn; lia | reflexivity..].
Defined.

Lemma sample_blake2_length (u8a : U8a) :
  length (Pair.blake2AsU8a (Primitives := collaborators) u8a) = 32.
Proof.
  change (length (take 32 (reverse u8a ++ replicate 32 x00)) = 32).
  rewrite length_take, length_app, length_replicate. lia.
Qed.

Lemma vrfSign_then_vrfVerify_witness :
  Pair.vrfSign (V := echoing) (Str "") (Some (Str "context")) None (unlockedPair ed25519)
    = Ok (Pair.vrfHash (V := echoing) (secret64 ++ []) (Some (Str "context")) None
          ++ (secret64 ++ []))
  ∧ length (Pair.vrfHash (V := echoing) (secret64 ++ []) (Some (Str "context")) None
            ++ (secret64 ++ [])) = 32 + length (secret64 ++ [])
  ∧ Pair.vrfVerify (V := echoing) (Str "")
      (Pair.vrfHash (V := echoing) (secret64 ++ []) (Some (Str "context")) None
       ++ (secret64 ++ []))
      (Bytes key32) (Some (Str "context")) None (unlockedPair ed25519) = Ok true.
Proof.
  apply (vrfSign_then_vrfVerify (V := echoing) (P := collaborators)
           (unlockedPair ed25519) (Str "") (Bytes key32) (Some (Str "context")) None
           (secret64 ++ []) key32 key32);
    [discriminate | discriminate | reflexivity | cbn; lia | apply sample_blake2_length
    | reflexivity..].
Defined.

Lemma vrfVerify_rejects_wrong_hash_witness :
  Pair.vrfVerify (V := echoing) (Str "") (x00 :: replicate 95 xff) (Bytes key32) None None
    (unlockedPair ed25519) = Ok false
  ∨ ∃ e, Pair.vrfVerify (V := echoing) (Str "") (x00 :: replicate 95 xff) (Bytes key32)
           None None (unlockedPair ed25519) = Throw e.
Proof.
  apply (vrfVerify_rejects_wrong_hash (V := echoing) (P := collaborators)
           (unlockedPair ed25519) (Str "") (x00 :: replicate 95 xff) (Bytes key32)
           None None); [discriminate|].
  vm_compute. discriminate.
Defined.

Lemma vrfVerify_mldsa_checks_under_hashed_key_witness :
  (Pair.vrfVerify (V := echoing) (Str "") (replicate 4659 x00) (Bytes key32) None None
     (unlockedPair mldsa) = Ok true ↔
   take 32 (replicate 4659 x00)
     = Pair.vrfHash (V := echoing) (drop 32 (replicate 4659 x00)) None None
   ∧ (accepts (P := echoing) mldsa [] (drop 32 (replicate 4659 x00))
        (replicate 32 x01) = true
      ∨ (ethereumWrappedOnly (P := echoing) [] = false
         ∧ accepts (P := echoing) mldsa (toggled (P := echoing) [])
             (drop 32 (replicate 4659 x00)) (replicate 32 x01) = true)))
  ∧ is_Ok (Pair.vrfVerify (V := echoing) (Str "") (replicate 4659 x00) (Bytes key32)
             None None (unlockedPair mldsa)) = true.
Proof.
  apply (vrfVerify_mldsa_checks_under_hashed_key (V := echoing) (P := collaborators)
           (unlockedPair mldsa) (Str "") (replicate 4659 x00) (Bytes key32) None None
           (replicate 32 x01)); [reflexivity | vm_compute; reflexivity | reflexivity].
Defined.

End MoreEvaluation.
